(** * Healthlink_Agent: the conversation pipelines, embedded and verified

    A shallow embedding of the two LangGraph pipelines of the repository,

    - [agent.py]: receive_query, fetch_context, llm_suggest,
      escalate_if_needed, save_and_respond;
    - [agent_graph.py]: fetch_patient_context, generate_response, and the
      helper [invoke_agent];
    - [backend_api.py]: the [/chat] endpoint that validates a request and
      calls [invoke_agent],

    followed by the properties of the specification that were checked
    against them.

    Modelling conventions.
    - A Python [str] is a [string]: a sequence of code points below 256.
      [lower], [strip] and the [in] operator follow Python on that range.
    - A Python [dict] with string keys is a [gmap string pyval]; a nested
      dictionary value keeps its insertion order (an association list),
      because its printed form depends on it.
    - A computation returns its event log together with a value or the
      exception it raised ([M]).  The events are the calls that leave the
      process: the context lookup, the model call and the provider task.
      Console output ([print]) is not part of the model.
    - The language model, the patient lookup and Python's [repr] are
      parameters of the sections that use them.
    - The content of a reply ([response.content]) is a text or a list of
      content blocks.  agent_graph.py hands it on unread, so there it is
      any value, and the chat endpoint is where a reply that is not a text
      is refused.  The gate of agent.py lower-cases the reply, and the
      model of agent.py takes the reply to be a text. *)

From Stdlib Require Import String Ascii ZArith List Lia DecimalString.
From stdpp Require Import base option list gmap strings.

Local Open Scope string_scope.
Local Open Scope list_scope.
Local Open Scope nat_scope.

(** ** Python primitives *)

Module Py.

(** The newline of a triple-quoted literal. *)
Definition nl : string := String (ascii_of_nat 10) "".

(** [c.lower()] for a code point below 256: the ASCII capitals and the
    Latin-1 capitals (all of 0xC0..0xDE but the multiplication sign) move
    up by 32; everything else is unchanged. *)
Definition is_upper (c : ascii) : bool :=
  let n := nat_of_ascii c in
  ((65 <=? n) && (n <=? 90)) ||
  ((192 <=? n) && (n <=? 222) && negb (n =? 215)).

Definition lower_char (c : ascii) : ascii :=
  if is_upper c then ascii_of_nat (nat_of_ascii c + 32) else c.

(** [s.lower()] *)
Fixpoint lower (s : string) : string :=
  match s with
  | EmptyString => EmptyString
  | String c s' => String (lower_char c) (lower s')
  end.

(** [s.startswith(p)] *)
Fixpoint startswith (p s : string) : bool :=
  match p, s with
  | EmptyString, _ => true
  | String a p', String b s' => Ascii.eqb a b && startswith p' s'
  | String _ _, EmptyString => false
  end.

(** [p in s] for two strings: [p] occurs in [s] at some position. *)
Fixpoint py_in (p s : string) : bool :=
  startswith p s ||
  match s with
  | EmptyString => false
  | String _ s' => py_in p s'
  end.

(** [any(f(x) for x in l)] *)
Definition any {A} (f : A -> bool) (l : list A) : bool := existsb f l.

(** Characters removed by [str.strip()] (those for which [isspace] holds). *)
Definition is_space (c : ascii) : bool :=
  let n := nat_of_ascii c in
  ((9 <=? n) && (n <=? 13)) || ((28 <=? n) && (n <=? 32)) ||
  (n =? 133) || (n =? 160).

Fixpoint lstrip (s : string) : string :=
  match s with
  | EmptyString => EmptyString
  | String c s' => if is_space c then lstrip s' else s
  end.

Fixpoint rstrip (s : string) : string :=
  match s with
  | EmptyString => EmptyString
  | String c s' =>
      match rstrip s' with
      | EmptyString => if is_space c then EmptyString else String c EmptyString
      | r => String c r
      end
  end.

(** [s.strip()] *)
Definition strip (s : string) : string := rstrip (lstrip s).

(** Truthiness of a string: [not s] holds for the empty string only. *)
Definition truthy (s : string) : bool :=
  match s with EmptyString => false | String _ _ => true end.

(** [sep.join(l)] for a list of strings. *)
Fixpoint join (sep : string) (l : list string) : string :=
  match l with
  | [] => ""
  | [x] => x
  | x :: l' => x +:+ sep +:+ join sep l'
  end.

(** Values stored in a profile. *)
#[warnings="-register-all"]
Inductive pyval : Type :=
| VNone
| VStr (s : string)
| VInt (z : Z)
| VList (l : list pyval)
| VDict (d : list (string * pyval)).

(** A dictionary with string keys. *)
Abbreviation dict := (gmap string pyval).

(** [d.get(k)] on a nested dictionary value. *)
Fixpoint assoc_get (k : string) (d : list (string * pyval)) : option pyval :=
  match d with
  | [] => None
  | (k', v) :: d' => if String.eqb k k' then Some v else assoc_get k d'
  end.

(** Exceptions: a Python exception with its class and [str(e)], or
    FastAPI's [HTTPException]. *)
Inductive exn : Type :=
| PyExc (cls : string) (msg : string)
| HTTPException (status_code : Z) (detail : string).

(** [str(e)] *)
Definition str_exn (e : exn) : string :=
  match e with
  | PyExc _ msg => msg
  | HTTPException c d =>
      NilZero.string_of_int (Z.to_int c) +:+ ": " +:+ d
  end.

Inductive Result (A : Type) : Type :=
| Ok (a : A)
| Err (e : exn).
Arguments Ok {A} a.
Arguments Err {A} e.

Section Repr.
(** Python's [repr], which [str] uses on lists and dictionaries. *)
Variable py_repr : pyval -> string.

(** [str(v)], as an f-string renders [{v}]. *)
Definition py_str (v : pyval) : string :=
  match v with
  | VNone => "None"
  | VStr s => s
  | VInt z => NilZero.string_of_int (Z.to_int z)
  | VList _ | VDict _ => py_repr v
  end.
End Repr.

(** The strings a value yields when iterated by [sep.join(v)]: the items
    of a list (each must be a [str]), the characters of a string, the
    keys of a dictionary; anything else is a [TypeError]. *)
Fixpoint str_items (l : list pyval) : option (list string) :=
  match l with
  | [] => Some []
  | VStr s :: l' =>
      match str_items l' with Some r => Some (s :: r) | None => None end
  | _ => None
  end.

Fixpoint chars (s : string) : list string :=
  match s with
  | EmptyString => []
  | String c s' => String c "" :: chars s'
  end.

Definition join_val (sep : string) (v : pyval) : Result string :=
  match v with
  | VList l =>
      match str_items l with
      | Some ss => Ok (join sep ss)
      | None => Err (PyExc "TypeError" "sequence item: expected str instance")
      end
  | VStr s => Ok (join sep (chars s))
  | VDict d => Ok (join sep (map fst d))
  | VNone | VInt _ =>
      Err (PyExc "TypeError" "can only join an iterable")
  end.

End Py.

(** ** Messages, events and the effect monad *)

Module Runtime.
Import Py.

(** The content of a message of the model, as LangChain types it:
    [Union[str, list[Union[str, dict]]]]. *)
Inductive block : Type :=
| BlockStr (s : string)
| BlockDict (d : list (string * pyval)).

Inductive content : Type :=
| Text (s : string)
| Blocks (blocks : list block).

(** [langchain_core.messages]: a message is tagged by its class. *)
Inductive message : Type :=
| SystemMessage (content : string)
| HumanMessage (content : string)
| AIMessage (content : content).

(** What a run does outside the process. *)
Inductive event : Type :=
| ContextLookup (user_id : string)
| ModelCall (messages : list message)
| ProviderTask (context : dict) (suggestion : string).

(** A computation: the events it emitted, then its value or the exception
    that ended it. *)
Definition M (A : Type) : Type := (list event * Result A)%type.

Definition ret {A} (a : A) : M A := ([], Ok a).
Definition raise {A} (e : exn) : M A := ([], Err e).
Definition emit (ev : event) : M unit := ([ev], Ok tt).
Definition lift {A} (r : Result A) : M A := ([], r).

Definition bind {A B} (m : M A) (k : A -> M B) : M B :=
  match m with
  | (evs, Ok a) => let (evs', r) := k a in (evs ++ evs', r)
  | (evs, Err e) => (evs, Err e)
  end.

(** [try: m except Exception as e: h e] *)
Definition try_except {A} (m : M A) (h : exn -> M A) : M A :=
  match m with
  | (evs, Ok a) => (evs, Ok a)
  | (evs, Err e) => let (evs', r) := h e in (evs ++ evs', r)
  end.

Definition events {A} (m : M A) : list event := fst m.
Definition outcome {A} (m : M A) : Result A := snd m.

(** [state[k]] on a state whose key [k] may be unset. *)
Definition getitem {A} (k : string) (o : option A) : M A :=
  match o with
  | Some a => ret a
  | None => raise (PyExc "KeyError" ("'" +:+ k +:+ "'"))
  end.

(** LangGraph stops a run after this many steps (its default). *)
Definition recursion_limit : nat := 25.

(** A compiled [StateGraph] whose nodes follow one another along single
    edges: from node [n], run the node (its result already written into
    the state by [step]), then follow the edge; [None] is [END]. *)
Section Graph.
Context {node state : Type}.
Variable step : node -> state -> M state.
Variable edge : node -> option node.

Fixpoint run_from (fuel : nat) (n : node) (st : state) : M state :=
  match fuel with
  | O => raise (PyExc "GraphRecursionError" "Recursion limit reached")
  | S fuel' =>
      bind (step n st) (fun st' =>
        match edge n with
        | None => ret st'
        | Some n' => run_from fuel' n' st'
        end)
  end.
End Graph.

(** [x or y] on an optional string: [None] and the empty string are falsy. *)
Definition or_else (x : option string) (y : string) : string :=
  match x with
  | Some (String c r) => String c r
  | _ => y
  end.

End Runtime.

Declare Scope M_scope.
Delimit Scope M_scope with M.
Notation "'let!' x ':=' m 'in' k" :=
  (Runtime.bind m (fun x => k))
  (at level 10, x name, m at level 100, k at level 200,
   format "'[v' 'let!'  x  ':='  m  'in' '/' k ']'") : M_scope.
Notation "m ';;!' k" :=
  (Runtime.bind m (fun _ => k))
  (at level 100, k at level 200, right associativity) : M_scope.

(** ** agent.py: the five-node pipeline *)

Module Agent.
Import Py Runtime.
Local Open Scope M_scope.

(** [class AgentState(TypedDict)].  A key that has not been written yet
    (or holds [None]) is [None]. *)
Record AgentState : Type := mkState {
  input : option string;
  intent : option string;
  context : option dict;
  suggestion : option string;
  escalate : option bool;
  chat_history : list message
}.

(** The dictionary a node returns: the keys it writes. *)
Record Update : Type := mkUpdate {
  u_input : option (option string);
  u_intent : option string;
  u_context : option dict;
  u_suggestion : option string;
  u_escalate : option bool;
  u_chat_history : option (list message)
}.

Definition no_update : Update := mkUpdate None None None None None None.

(** LangGraph writes a node's result into the state; no key of this state
    has a reducer, so a written key replaces the old value. *)
Definition merge (st : AgentState) (u : Update) : AgentState :=
  {| input := default (input st) (u_input u);
     intent := match u_intent u with Some i => Some i | None => intent st end;
     context := match u_context u with Some c => Some c | None => context st end;
     suggestion :=
       match u_suggestion u with Some r => Some r | None => suggestion st end;
     escalate := match u_escalate u with Some b => Some b | None => escalate st end;
     chat_history := default (chat_history st) (u_chat_history u) |}.

Definition mock_recognize_intent (query : string) : string :=
  if py_in "suggestion" (lower query) || py_in "tip" (lower query)
  then "suggestion_request"
  else if py_in "explain" (lower query) || py_in "what is" (lower query)
  then "info_request"
  else "general_chat".

(** The dictionary [mock_load_context] returns. *)
Definition mock_context (patient_id : string) : dict :=
  <["patient_id" := VStr patient_id]>
  (<["name" := VStr "Jane Doe"]>
  (<["recent_visit" := VStr "2025-10-28"]>
  (<["diagnosis" := VStr "Type 2 Diabetes"]>
  (<["medication" := VStr "Metformin 500mg"]>
  (<["lab_results" := VDict [("hba1c", VStr "7.2%")]]> ∅))))).

Definition mock_load_context (patient_id : string) (intent : string) : M dict :=
  emit (ContextLookup patient_id) ;;!
  ret (mock_context patient_id).

Definition mock_create_provider_task (context : dict) (suggestion : string)
  : M unit :=
  emit (ProviderTask context suggestion).

Definition receive_query (state : AgentState) : M Update :=
  let! query := getitem "input" (input state) in
  let intent := mock_recognize_intent query in
  ret {| u_input := None; u_intent := Some intent; u_context := None;
         u_suggestion := None; u_escalate := None;
         u_chat_history := Some (chat_history state ++ [HumanMessage query]) |}.

Definition fetch_context (state : AgentState) : M Update :=
  let patient_id := "patient-123" in
  let! intent := getitem "intent" (intent state) in
  let! context := mock_load_context patient_id intent in
  ret {| u_input := None; u_intent := None; u_context := Some context;
         u_suggestion := None; u_escalate := None; u_chat_history := None |}.

Definition escalation_keywords : list string :=
  ["medication change"; "severe pain"; "urgent"; "dosage"].

Section WithBackend.
(** [llm.invoke(messages).content], taken to be a text (the gate
    lower-cases it), or the exception the call raises. *)
Variable llm_invoke : list message -> Result string.
Variable py_repr : pyval -> string.

(** [context.get('lab_results', {}).get('hba1c')] *)
Definition hba1c (context : dict) : Result pyval :=
  match default (VDict []) (context !! "lab_results") with
  | VDict d => Ok (default VNone (assoc_get "hba1c" d))
  | _ => Err (PyExc "AttributeError" "object has no attribute 'get'")
  end.

(** The f-string of [llm_suggest]. *)
Definition prompt (context : dict) : Result string :=
  match hba1c context with
  | Err e => Err e
  | Ok lab =>
    Ok (nl +:+
    "    You are an AI Communicator for a health platform. You are talking to a patient." +:+ nl +:+
    "    Your tone must be empathetic, clear, and supportive. DO NOT give medical advice," +:+ nl +:+
    "    but you can provide suggestions based on the data." +:+ nl +:+
    "    " +:+ nl +:+
    "    Patient Context:" +:+ nl +:+
    "    - Name: " +:+ py_str py_repr (default VNone (context !! "name")) +:+ nl +:+
    "    - Diagnosis: " +:+ py_str py_repr (default VNone (context !! "diagnosis")) +:+ nl +:+
    "    - Medication: " +:+ py_str py_repr (default VNone (context !! "medication")) +:+ nl +:+
    "    - Recent HbA1c: " +:+ py_str py_repr lab +:+ nl +:+
    nl +:+
    "    Respond to the user's last message." +:+ nl +:+
    "    ")
  end.

Definition llm_suggest (state : AgentState) : M Update :=
  let! context := getitem "context" (context state) in
  let history := chat_history state in
  let! prompt := lift (prompt context) in
  let messages := SystemMessage prompt :: history in
  emit (ModelCall messages) ;;!
  let! suggestion := lift (llm_invoke messages) in
  ret {| u_input := None; u_intent := None; u_context := None;
         u_suggestion := Some suggestion; u_escalate := None;
         u_chat_history :=
           Some (chat_history state ++ [AIMessage (Text suggestion)]) |}.

Definition escalate_if_needed (state : AgentState) : M Update :=
  let! suggestion := getitem "suggestion" (suggestion state) in
  if any (fun keyword => py_in keyword (lower suggestion)) escalation_keywords
  then
    let! context := getitem "context" (context state) in
    mock_create_provider_task context suggestion ;;!
    ret {| u_input := None; u_intent := None; u_context := None;
           u_suggestion := None; u_escalate := Some true;
           u_chat_history := None |}
  else
    ret {| u_input := None; u_intent := None; u_context := None;
           u_suggestion := None; u_escalate := Some false;
           u_chat_history := None |}.

Definition save_and_respond (state : AgentState) : M Update :=
  let! suggestion := getitem "suggestion" (suggestion state) in
  ret {| u_input := Some None; u_intent := None; u_context := None;
         u_suggestion := None; u_escalate := None; u_chat_history := None |}.

(** The graph: [add_node], [set_entry_point], [add_edge]. *)
Inductive node : Type :=
| n_receive_query
| n_fetch_context
| n_llm_suggest
| n_escalate_if_needed
| n_save_and_respond.

Definition node_fn (n : node) : AgentState -> M Update :=
  match n with
  | n_receive_query => receive_query
  | n_fetch_context => fetch_context
  | n_llm_suggest => llm_suggest
  | n_escalate_if_needed => escalate_if_needed
  | n_save_and_respond => save_and_respond
  end.

Definition entry_point : node := n_receive_query.

(** [None] is [END]. *)
Definition edge (n : node) : option node :=
  match n with
  | n_receive_query => Some n_fetch_context
  | n_fetch_context => Some n_llm_suggest
  | n_llm_suggest => Some n_escalate_if_needed
  | n_escalate_if_needed => Some n_save_and_respond
  | n_save_and_respond => None
  end.

(** One step: run the node, write its result into the state. *)
Definition step (n : node) (state : AgentState) : M AgentState :=
  let! u := node_fn n state in ret (merge state u).

(** [app.invoke(inputs)] on the compiled graph. *)
Definition app_invoke (inputs : AgentState) : M AgentState :=
  run_from step edge recursion_limit entry_point inputs.

(** The inputs the chat front end builds:
    [{"input": prompt, "chat_history": history_for_bot}]. *)
Definition inputs (query : string) (history : list message) : AgentState :=
  {| input := Some query; intent := None; context := None;
     suggestion := None; escalate := None; chat_history := history |}.

Definition run (query : string) (history : list message) : M AgentState :=
  app_invoke (inputs query history).

End WithBackend.
End Agent.

(** ** agent_graph.py: the two-node pipeline *)

Module AgentGraph.
Import Py Runtime.
Local Open Scope M_scope.

(** [class AgentState(TypedDict)]; [invoke_agent] sets every key. *)
Record AgentState : Type := mkState {
  messages : list message;
  user_id : string;
  patient_context : dict;
  response : content
}.

Record Update : Type := mkUpdate {
  u_messages : option (list message);
  u_patient_context : option dict;
  u_response : option content
}.

Definition merge (st : AgentState) (u : Update) : AgentState :=
  {| messages := default (messages st) (u_messages u);
     user_id := user_id st;
     patient_context := default (patient_context st) (u_patient_context u);
     response := default (response st) (u_response u) |}.

(** The mock data the [try] block of [fetch_patient_context] assembles
    today, for any user. *)
Definition mock_data (user_id : string) : Result dict :=
  Ok (<["name" := VStr "Jane Doe"]>
     (<["age" := VInt 45]>
     (<["email" := VStr "jane.doe@example.com"]>
     (<["medical_history" := VStr "Type 2 Diabetes diagnosed in 2020"]>
     (<["diagnoses" := VList [VStr "Type 2 Diabetes"; VStr "Hypertension"]]>
     (<["medications" := VList [VStr "Metformin 500mg twice daily";
                               VStr "Lisinopril 10mg daily"]]>
     (<["allergies" := VList [VStr "Penicillin"]]>
     (<["last_visit" := VStr "2025-12-01"]>
     (<["blockchain_hash" := VStr "0x1234567890abcdef..."]> ∅))))))))).

(** The minimal context of the [except] branch. *)
Definition fallback_context (e : exn) : dict :=
  <["name" := VStr "Patient"]>
  (<["age" := VStr "Unknown"]>
  (<["medical_history" := VStr "No data available"]>
  (<["error" := VStr (str_exn e)]> ∅))).

Definition error_response : string :=
  "I apologize, but I'm having trouble processing your request right now. Please try again or contact your healthcare provider if this is urgent.".

(** The f-string of [generate_response]; [diagnoses] and [medications]
    are rendered through [or "None on record"]. *)
Definition f_system_prompt
  (name age medical_history diagnoses medications allergies : string) : string :=
  "You are a helpful and empathetic medical assistant AI. " +:+ nl +:+
  nl +:+
  "You are currently speaking to **" +:+ name +:+ "**, who is **" +:+ age +:+ " years old**." +:+ nl +:+
  nl +:+
  "**Patient Medical Context:**" +:+ nl +:+
  "- **Medical History:** " +:+ medical_history +:+ nl +:+
  "- **Current Diagnoses:** " +:+ (if truthy diagnoses then diagnoses else "None on record") +:+ nl +:+
  "- **Current Medications:** " +:+ (if truthy medications then medications else "None on record") +:+ nl +:+
  "- **Known Allergies:** " +:+ allergies +:+ nl +:+
  nl +:+
  "**Important Guidelines:**" +:+ nl +:+
  "1. Provide personalized advice based on the patient's specific medical context" +:+ nl +:+
  "2. Always be empathetic and supportive in your tone" +:+ nl +:+
  "3. DO NOT provide medical diagnoses or prescribe medications" +:+ nl +:+
  "4. If the question requires immediate medical attention, advise the patient to contact their healthcare provider" +:+ nl +:+
  "5. Reference their specific conditions and medications when relevant" +:+ nl +:+
  "6. Be clear that you are an AI assistant and not a replacement for professional medical advice" +:+ nl +:+
  nl +:+
  "Answer the patient's question based on their medical context while following these guidelines.".

Section WithBackend.
(** The body of the [try] block of [fetch_patient_context]: the profile
    looked up for a user, or the exception the lookup raises. *)
Variable lookup : string -> Result dict.
(** Building the client ([ChatGoogleGenerativeAI(...)], reading the
    environment) and [llm.invoke(full_messages).content]: a text
    ([Text]) or a list of content blocks ([Blocks]); the node does not
    look at it. *)
Variable llm_client : Result unit.
Variable llm_invoke : list message -> Result content.
Variable py_repr : pyval -> string.

Definition fetch_patient_context (state : AgentState) : M Update :=
  let user_id := user_id state in
  let! patient_context :=
    try_except
      (emit (ContextLookup user_id) ;;! lift (lookup user_id))
      (fun e => ret (fallback_context e)) in
  ret {| u_messages := None; u_patient_context := Some patient_context;
         u_response := None |}.

(** Lines 132-161 of [generate_response]: extract the patient details and
    build the system prompt. *)
Definition system_prompt (patient_context : dict) : Result string :=
  let name := default (VStr "Patient") (patient_context !! "name") in
  let age := default (VStr "Unknown") (patient_context !! "age") in
  let medical_history :=
    default (VStr "No medical history available")
            (patient_context !! "medical_history") in
  match join_val ", " (default (VList []) (patient_context !! "diagnoses")) with
  | Err e => Err e
  | Ok diagnoses =>
  match join_val ", " (default (VList []) (patient_context !! "medications")) with
  | Err e => Err e
  | Ok medications =>
  match join_val ", " (default (VList [VStr "None known"])
                               (patient_context !! "allergies")) with
  | Err e => Err e
  | Ok allergies =>
      Ok (f_system_prompt (py_str py_repr name) (py_str py_repr age)
            (py_str py_repr medical_history) diagnoses medications allergies)
  end end end.

Definition generate_response (state : AgentState) : M Update :=
  let patient_context := patient_context state in
  let messages := messages state in
  let! system_prompt := lift (system_prompt patient_context) in
  try_except
    (lift llm_client ;;!
     let full_messages := SystemMessage system_prompt :: messages in
     emit (ModelCall full_messages) ;;!
     let! ai_response := lift (llm_invoke full_messages) in
     let updated_messages := messages ++ [AIMessage ai_response] in
     ret {| u_messages := Some updated_messages; u_patient_context := None;
            u_response := Some ai_response |})
    (fun e =>
     ret {| u_messages := Some (messages ++ [AIMessage (Text error_response)]);
            u_patient_context := None;
            u_response := Some (Text error_response) |}).

(** [create_healthcare_agent]: the graph. *)
Inductive node : Type :=
| n_fetch_patient_context
| n_generate_response.

Definition node_fn (n : node) : AgentState -> M Update :=
  match n with
  | n_fetch_patient_context => fetch_patient_context
  | n_generate_response => generate_response
  end.

Definition entry_point : node := n_fetch_patient_context.

Definition edge (n : node) : option node :=
  match n with
  | n_fetch_patient_context => Some n_generate_response
  | n_generate_response => None
  end.

Definition step (n : node) (state : AgentState) : M AgentState :=
  let! u := node_fn n state in ret (merge state u).

(** [healthcare_agent.invoke(initial_state, config)] *)
Definition healthcare_agent_invoke (initial_state : AgentState) : M AgentState :=
  run_from step edge recursion_limit entry_point initial_state.

(** The dictionary [invoke_agent] returns. *)
Record AgentResult : Type := mkResult {
  r_response : content;
  r_user_id : string;
  r_thread_id : string;
  r_patient_context : dict
}.

Definition invoke_agent (user_id message : string) (thread_id : option string)
  : M AgentResult :=
  try_except
    (let config_thread_id := or_else thread_id ("thread-" +:+ user_id) in
     let initial_state :=
       {| messages := [HumanMessage message]; user_id := user_id;
          patient_context := ∅; response := Text "" |} in
     let! final_state := healthcare_agent_invoke initial_state in
     ret {| r_response := response final_state;
            r_user_id := user_id;
            r_thread_id := config_thread_id;
            r_patient_context := patient_context final_state |})
    (fun e => raise e).

End WithBackend.
End AgentGraph.

(** ** backend_api.py: the chat endpoint *)

Module BackendApi.
Import Py Runtime.
Local Open Scope M_scope.

(** [models.ChatRequest] and [models.ChatResponse] *)
Record ChatRequest : Type := mkRequest {
  user_id : string;
  message : string;
  thread_id : option string
}.

Record ChatResponse : Type := mkResponse {
  response : string;
  resp_user_id : string;
  resp_thread_id : string;
  patient_context : option dict
}.

Definition HTTP_400_BAD_REQUEST : Z := 400.
Definition HTTP_500_INTERNAL_SERVER_ERROR : Z := 500.

Section WithBackend.
Variable lookup : string -> Result dict.
Variable llm_client : Result unit.
Variable llm_invoke : list Runtime.message -> Result content.
Variable py_repr : pyval -> string.
(** [uuid.uuid4().hex[:8]] *)
Variable uuid_hex8 : string.
(** The text of pydantic's [ValidationError] for a [response] that is not
    a string. *)
Variable validation_error : content -> string.

(** [ChatResponse(response=..., user_id=..., thread_id=...,
    patient_context=...)]: pydantic checks the fields against their
    declared types.  The identifiers are strings and the context is a
    dictionary; [response: str] holds for a text only. *)
Definition make_ChatResponse (response : content) (user_id thread_id : string)
  (patient_context : option dict) : Result ChatResponse :=
  match response with
  | Text s =>
      Ok {| BackendApi.response := s; resp_user_id := user_id;
            resp_thread_id := thread_id;
            BackendApi.patient_context := patient_context |}
  | Blocks _ => Err (PyExc "ValidationError" (validation_error response))
  end.

Definition chat (request : ChatRequest) : M ChatResponse :=
  try_except
    (if negb (truthy (user_id request)) || negb (truthy (strip (user_id request)))
     then raise (HTTPException HTTP_400_BAD_REQUEST
                   "user_id is required and cannot be empty")
     else
     if negb (truthy (message request)) || negb (truthy (strip (message request)))
     then raise (HTTPException HTTP_400_BAD_REQUEST
                   "message is required and cannot be empty")
     else
     let thread_id :=
       or_else (thread_id request)
               ("thread-" +:+ user_id request +:+ "-" +:+ uuid_hex8) in
     let! result :=
       AgentGraph.invoke_agent lookup llm_client llm_invoke py_repr
         (user_id request) (message request) (Some thread_id) in
     lift (make_ChatResponse
             (AgentGraph.r_response result)
             (AgentGraph.r_user_id result)
             (AgentGraph.r_thread_id result)
             (Some (AgentGraph.r_patient_context result))))
    (fun e =>
     match e with
     | HTTPException _ _ => raise e
     | PyExc _ _ =>
         raise (HTTPException HTTP_500_INTERNAL_SERVER_ERROR
                  ("Failed to process chat request: " +:+ str_exn e))
     end).

End WithBackend.

(** The dictionary [get_patient_context] returns. *)
Record PatientContextResponse : Type := mkPatientContext {
  pc_user_id : string;
  pc_patient_context : dict;
  pc_timestamp : string
}.

Section PatientEndpoint.
Variable lookup : string -> Result dict.
(** [datetime.utcnow().isoformat()] *)
Variable utcnow : string.

(** [GET /patient/{user_id}].  The state handed to
    [fetch_patient_context] holds the key [user_id] only, the one key the
    node reads; the other fields of the record are unset. *)
Definition get_patient_context (user_id : string) : M PatientContextResponse :=
  try_except
    (if negb (truthy user_id) || negb (truthy (strip user_id))
     then raise (HTTPException HTTP_400_BAD_REQUEST "user_id is required")
     else
     let state :=
       {| AgentGraph.messages := []; AgentGraph.user_id := user_id;
          AgentGraph.patient_context := ∅; AgentGraph.response := Text "" |} in
     let! result := AgentGraph.fetch_patient_context lookup state in
     let! patient_context :=
       getitem "patient_context" (AgentGraph.u_patient_context result) in
     ret {| pc_user_id := user_id;
            pc_patient_context := patient_context;
            pc_timestamp := utcnow |})
    (fun e =>
     raise (HTTPException HTTP_500_INTERNAL_SERVER_ERROR
              ("Failed to fetch patient context: " +:+ str_exn e))).

End PatientEndpoint.
End BackendApi.

(** ** chat_app.py: the chat front end *)

Module ChatApp.
Import Py Runtime.
Local Open Scope M_scope.

(** What the assistant's chat bubble shows after a submission. *)
Inductive shown : Type :=
| Written (response : string)
| ErrorBox (text : string).

(** [list.pop()]: the list without its last item; an empty list raises. *)
Definition pop {A} (l : list A) : Result (list A) :=
  match l with
  | [] => Err (PyExc "IndexError" "pop from empty list")
  | _ => Ok (removelast l)
  end.

(** Section 2 of the script: the bubbles drawn for the stored history,
    each with its role; a message that is neither a [HumanMessage] nor an
    [AIMessage] is not drawn. *)
Fixpoint display (chat_history : list message) : list (string * content) :=
  match chat_history with
  | [] => []
  | HumanMessage content :: rest => ("user", Text content) :: display rest
  | AIMessage content :: rest => ("assistant", content) :: display rest
  | SystemMessage _ :: rest => display rest
  end.

Section WithBackend.
Variable llm_invoke : list message -> Result string.
Variable py_repr : pyval -> string.

(** Sections 3 and 4 of the script, for a submitted [prompt]: the new
    [st.session_state.chat_history] and what is shown.  The history handed
    to the agent is the stored one without the message just appended
    ([chat_history[:-1]]). *)
Definition submit (chat_history : list message) (prompt : string)
  : M (list message * shown) :=
  let chat_history := chat_history ++ [HumanMessage prompt] in
  let history_for_bot := removelast chat_history in
  let inputs := Agent.inputs prompt history_for_bot in
  try_except
    (let! final_state := Agent.app_invoke llm_invoke py_repr inputs in
     let response :=
       default "Sorry, I'm not sure how to respond to that."
               (Agent.suggestion final_state) in
     ret (chat_history ++ [AIMessage (Text response)], Written response))
    (fun e =>
     let! chat_history := lift (pop chat_history) in
     ret (chat_history, ErrorBox ("An error occurred: " +:+ str_exn e))).

(** One rerun of the script: [st.chat_input] gives [None] when nothing was
    submitted, and only a truthy prompt is handled. *)
Definition rerun (chat_history : list message) (prompt : option string)
  : M (list message * option shown) :=
  match prompt with
  | Some (String c r) =>
      let! res := submit chat_history (String c r) in
      ret (fst res, Some (snd res))
  | _ => ret (chat_history, None)
  end.

End WithBackend.
End ChatApp.

(** * Vocabulary of the properties *)

Import Py Runtime.

(** The specification's notion: [r] contains the phrase [kw] as a
    substring, letter case ignored. *)
Definition contains_ci (r kw : string) : Prop :=
  exists pre mid post, r = pre +:+ mid +:+ post /\ lower mid = lower kw.

(** The test of [escalate_if_needed] (line 127), as a function of the
    reply text. *)
Definition evaluate (replyText : string) : bool :=
  any (fun keyword => py_in keyword (lower replyText)) Agent.escalation_keywords.

(** The update [{"escalate": b}]. *)
Definition escalate_update (b : bool) : Agent.Update :=
  {| Agent.u_input := None; Agent.u_intent := None; Agent.u_context := None;
     Agent.u_suggestion := None; Agent.u_escalate := Some b;
     Agent.u_chat_history := None |}.

(** A state as the gate finds it: context and reply are set. *)
Definition gate_state (r : string) : Agent.AgentState :=
  {| Agent.input := Some "hello"; Agent.intent := Some "general_chat";
     Agent.context := Some ∅; Agent.suggestion := Some r;
     Agent.escalate := None; Agent.chat_history := [] |}.

(** The system prompt [llm_suggest] builds from the mock context. *)
Definition mock_prompt : string :=
  Eval vm_compute in
    match Agent.prompt (fun _ => "") (Agent.mock_context "patient-123") with
    | Ok p => p
    | Err _ => ""
    end.

(** The messages [llm_suggest] sends for query [q] after history [hist]. *)
Definition sent (q : string) (hist : list message) : list message :=
  SystemMessage mock_prompt :: hist ++ [HumanMessage q].

(** The terminal state of a run of agent.py whose model call returned [r]. *)
Definition final_state (q : string) (hist : list message) (r : string)
  : Agent.AgentState :=
  {| Agent.input := None;
     Agent.intent := Some (Agent.mock_recognize_intent q);
     Agent.context := Some (Agent.mock_context "patient-123");
     Agent.suggestion := Some r;
     Agent.escalate := Some (evaluate r);
     Agent.chat_history := (hist ++ [HumanMessage q]) ++ [AIMessage (Text r)] |}.

(** The profile [fetch_patient_context] writes for user [uid]: the one
    looked up, or the minimal context when the lookup raises. *)
Definition resolved (lookup : string -> Result dict) (uid : string) : dict :=
  match lookup uid with
  | Ok c => c
  | Err e => AgentGraph.fallback_context e
  end.

(** The messages [generate_response] sends: the system prompt, then the
    user's message. *)
Definition full_messages (p msg : string) : list message :=
  [SystemMessage p; HumanMessage msg].

(** The reply [generate_response] settles on: the content the model
    returned, or the fallback text when the client or the call fails. *)
Definition reply_of (llm_client : Result unit)
  (llm_invoke : list message -> Result content) (p msg : string) : content :=
  match llm_client with
  | Ok _ =>
      match llm_invoke (full_messages p msg) with
      | Ok r => r
      | Err _ => Text AgentGraph.error_response
      end
  | Err _ => Text AgentGraph.error_response
  end.

(** The model call of [generate_response], when the client could be built. *)
Definition model_events (llm_client : Result unit) (p msg : string)
  : list event :=
  match llm_client with
  | Ok _ => [ModelCall (full_messages p msg)]
  | Err _ => []
  end.

(** Sample backends: one that answers, one that returns an empty text, one
    that is down; and a [repr] for data that needs none. *)
Definition llm_answers : list message -> Result string :=
  fun _ => Ok "Try a short walk after dinner.".
Definition llm_down : list message -> Result string :=
  fun _ => Err (PyExc "TimeoutError" "backend timed out").
Definition lookup_down : string -> Result dict :=
  fun _ => Err (PyExc "ConnectionError" "database unreachable").
Definition repr0 : pyval -> string := fun _ => "".

(** A backend whose replies are texts, seen as a backend of contents. *)
Definition as_content (llm_invoke : list message -> Result string)
  : list message -> Result content :=
  fun messages =>
    match llm_invoke messages with
    | Ok r => Ok (Text r)
    | Err e => Err e
    end.

(** A backend that answers with a list of content blocks, not a text. *)
Definition llm_blocks : list message -> Result content :=
  fun _ => Ok (Blocks [BlockStr "Try a short walk "; BlockStr "after dinner."]).

(** A stand-in for the text of pydantic's validation error. *)
Definition validation_error0 : content -> string :=
  fun _ => "1 validation error for ChatResponse".

(** A state with its intent replaced. *)
Definition with_intent (i : option string) (st : Agent.AgentState)
  : Agent.AgentState :=
  {| Agent.input := Agent.input st; Agent.intent := i;
     Agent.context := Agent.context st;
     Agent.suggestion := Agent.suggestion st;
     Agent.escalate := Agent.escalate st;
     Agent.chat_history := Agent.chat_history st |}.

(** Apply [f] to the value of a computation. *)
Definition mapM {A B} (f : A -> B) (m : M A) : M B :=
  (events m,
   match outcome m with
   | Ok a => Ok (f a)
   | Err e => Err e
   end).

(** [t] occurs in [p], letter case respected. *)
Definition occurs (t p : string) : Prop :=
  exists pre post, p = pre +:+ t +:+ post.

(** The profile attributes the system prompt of agent_graph.py renders. *)
Inductive attribute : Type :=
| Name | Age | MedicalHistory | Diagnoses | Medications | Allergies.

Definition attr_key (a : attribute) : string :=
  match a with
  | Name => "name"
  | Age => "age"
  | MedicalHistory => "medical_history"
  | Diagnoses => "diagnoses"
  | Medications => "medications"
  | Allergies => "allergies"
  end.

(** The place of an attribute in the prompt, filled with [text]. *)
Definition line (a : attribute) (text : string) : string :=
  match a with
  | Name => "You are currently speaking to **" +:+ text +:+ "**"
  | Age => "who is **" +:+ text +:+ " years old**"
  | MedicalHistory => "- **Medical History:** " +:+ text +:+ nl
  | Diagnoses => "- **Current Diagnoses:** " +:+ text +:+ nl
  | Medications => "- **Current Medications:** " +:+ text +:+ nl
  | Allergies => "- **Known Allergies:** " +:+ text +:+ nl
  end.

(** What the code writes for an attribute the profile lacks. *)
Definition placeholder (a : attribute) : string :=
  match a with
  | Name => "Patient"
  | Age => "Unknown"
  | MedicalHistory => "No medical history available"
  | Diagnoses => "None on record"
  | Medications => "None on record"
  | Allergies => "None known"
  end.

(** A string made of white space only (the empty string included). *)
Fixpoint blank (s : string) : bool :=
  match s with
  | EmptyString => true
  | String c s' => is_space c && blank s'
  end.

(** The prompt composed from the minimal context of a failed lookup. *)
Definition degraded_prompt : string :=
  AgentGraph.f_system_prompt "Patient" "Unknown" "No data available"
    "" "" "None known".

(** A history made of completed exchanges: a user message, then the
    assistant's reply. *)
Fixpoint exchanges (l : list (string * string)) : list message :=
  match l with
  | [] => []
  | (q, r) :: l' => HumanMessage q :: AIMessage (Text r) :: exchanges l'
  end.

(** The stored history of the chat front end after a series of
    submissions, each answered by the model as it behaves at that time.
    A submission whose handler itself raises leaves the history as it
    was. *)
Fixpoint session_after (py_repr : pyval -> string)
  (turns : list (string * (list message -> Result string)))
  (chat_history : list message) : list message :=
  match turns with
  | [] => chat_history
  | (prompt, llm_invoke) :: turns' =>
      match outcome (ChatApp.submit llm_invoke py_repr chat_history prompt) with
      | Ok (chat_history', _) => session_after py_repr turns' chat_history'
      | Err _ => session_after py_repr turns' chat_history
      end
  end.

(** A reply that is a text. *)
Definition is_text (v : content) : bool :=
  match v with
  | Text _ => true
  | Blocks _ => false
  end.

(** * Properties *)


(** ** Strings *)

Lemma sapp_nil_l (s : string) : "" +:+ s = s.
Proof. reflexivity. Qed.

Lemma sapp_cons (c : ascii) (a s : string) :
  String c a +:+ s = String c (a +:+ s).
Proof. reflexivity. Qed.

Lemma sapp_nil_r (s : string) : s +:+ "" = s.
Proof. induction s as [|c s IH]; [reflexivity|]. rewrite sapp_cons. by f_equal. Qed.

Lemma sapp_assoc (a b c : string) : (a +:+ b) +:+ c = a +:+ (b +:+ c).
Proof.
  induction a as [|x a IH]; [reflexivity|].
  rewrite !sapp_cons. by f_equal.
Qed.

Lemma lower_app (a b : string) : lower (a +:+ b) = lower a +:+ lower b.
Proof.
  induction a as [|c a IH]; [reflexivity|].
  rewrite sapp_cons. cbn [lower]. rewrite sapp_cons. by f_equal.
Qed.

(** A split of [lower r] comes from a split of [r]: lowering is done
    character by character. *)
Lemma lower_app_inv (r a b : string) :
  lower r = a +:+ b ->
  exists r1 r2, r = r1 +:+ r2 /\ lower r1 = a /\ lower r2 = b.
Proof.
  revert r. induction a as [|c a IH]; intros r H.
  - exists "", r. by rewrite !sapp_nil_l in *.
  - destruct r as [|x r]; [discriminate|].
    rewrite sapp_cons in H. cbn [lower] in H. injection H as Hc Hr.
    destruct (IH r Hr) as (r1 & r2 & -> & H1 & H2).
    exists (String x r1), r2. rewrite sapp_cons. cbn [lower].
    by rewrite Hc, H1.
Qed.

Lemma startswith_spec (p s : string) :
  startswith p s = true <-> exists t, s = p +:+ t.
Proof.
  revert s. induction p as [|a p IH]; intros s.
  - split; [intros _; by exists s|done].
  - destruct s as [|b s]; cbn [startswith].
    + split; [done|]. intros [t Ht]. by rewrite sapp_cons in Ht.
    + rewrite andb_true_iff, Ascii.eqb_eq, IH. split.
      * intros [-> [t ->]]. by exists t.
      * intros [t Ht]. rewrite sapp_cons in Ht. injection Ht as -> ->. eauto.
Qed.

(** [p in s] is substring containment. *)
Lemma py_in_spec (p s : string) :
  py_in p s = true <-> exists a b, s = a +:+ p +:+ b.
Proof.
  induction s as [|c s IH].
  - cbn [py_in]. rewrite orb_false_r, startswith_spec. split.
    + intros [t Ht]. by exists "", t.
    + intros (a & b & H). destruct a; [|by rewrite sapp_cons in H].
      rewrite sapp_nil_l in H. by exists b.
  - cbn [py_in]. rewrite orb_true_iff, startswith_spec, IH. split.
    + intros [[t Ht] | (a & b & ->)].
      * by exists "", t.
      * by exists (String c a), b.
    + intros (a & b & H). destruct a as [|x a].
      * left. by exists b.
      * right. rewrite sapp_cons in H. injection H as _ ->. by exists a, b.
Qed.


Lemma py_in_lower_contains_ci (r kw : string) :
  lower kw = kw ->
  py_in kw (lower r) = true <-> contains_ci r kw.
Proof.
  intros Hkw. rewrite py_in_spec. unfold contains_ci. split.
  - intros (a & b & H).
    destruct (lower_app_inv _ _ _ H) as (pre & rest & -> & _ & H2).
    destruct (lower_app_inv _ _ _ H2) as (mid & post & -> & H3 & _).
    exists pre, mid, post. by rewrite Hkw.
  - intros (pre & mid & post & -> & H).
    exists (lower pre), (lower post). by rewrite !lower_app, H, Hkw.
Qed.

(** ** The safety gate of agent.py *)

Lemma escalate_if_needed_eq (state : Agent.AgentState) (r : string) (ctx : dict) :
  Agent.suggestion state = Some r ->
  Agent.context state = Some ctx ->
  Agent.escalate_if_needed state =
    (if evaluate r then [ProviderTask ctx r] else [],
     Ok (escalate_update (evaluate r))).
Proof.
  intros Hs Hc. unfold Agent.escalate_if_needed. rewrite Hs, Hc.
  cbn [getitem]. unfold bind at 1, ret at 1.
  change (any _ Agent.escalation_keywords) with (evaluate r).
  destruct (evaluate r); reflexivity.
Qed.

Lemma evaluate_spec (r : string) :
  evaluate r = true <->
  exists kw, In kw ["medication change"; "severe pain"; "urgent"; "dosage"]
             /\ contains_ci r kw.
Proof.
  unfold evaluate, any, Agent.escalation_keywords.
  rewrite existsb_exists. split.
  - intros (kw & Hin & H). exists kw. split; [done|].
    apply py_in_lower_contains_ci; [|done].
    cbn [In] in Hin. destruct Hin as [<-|[<-|[<-|[<-|[]]]]]; reflexivity.
  - intros (kw & Hin & H). exists kw. split; [done|].
    apply py_in_lower_contains_ci; [|done].
    cbn [In] in Hin. destruct Hin as [<-|[<-|[<-|[<-|[]]]]]; reflexivity.
Qed.

(** C1.  The gate's decision on a state whose reply is [r] is
    [evaluate r], a function of the reply text alone, and it is [true]
    exactly when [r] contains one of the four trigger phrases as a
    substring, letter case ignored. *)
Theorem safety_gate_iff_trigger_phrase
  (state : Agent.AgentState) (r : string) (ctx : dict) :
  Agent.suggestion state = Some r ->
  Agent.context state = Some ctx ->
  outcome (Agent.escalate_if_needed state) = Ok (escalate_update (evaluate r)) /\
  (evaluate r = true <->
   exists kw, In kw ["medication change"; "severe pain"; "urgent"; "dosage"]
              /\ contains_ci r kw).
Proof.
  intros Hs Hc. split.
  - by rewrite (escalate_if_needed_eq state r ctx Hs Hc).
  - apply evaluate_spec.
Qed.

Lemma safety_gate_iff_trigger_phrase_witness :
  let r := "This is not URGENTLY needed" in
  outcome (Agent.escalate_if_needed (gate_state r))
    = Ok (escalate_update (evaluate r)) /\
  (evaluate r = true <->
   exists kw, In kw ["medication change"; "severe pain"; "urgent"; "dosage"]
              /\ contains_ci r kw).
Proof.
  apply (safety_gate_iff_trigger_phrase
           (gate_state "This is not URGENTLY needed") _ ∅); reflexivity.
Defined.

(** No word boundary is required: a phrase inside a longer word triggers. *)
Example evaluate_inside_word : evaluate "The insurgents left" = true.
Proof. reflexivity. Qed.

Example evaluate_plain_reply : evaluate "Try a short walk after dinner." = false.
Proof. reflexivity. Qed.

(** ** Running a graph *)

Lemma run_from_ok {node state : Type}
  (step : node -> state -> M state) (edge : node -> option node)
  (fuel : nat) (n : node) (st st' : state) (evs : list event) :
  step n st = (evs, Ok st') ->
  run_from step edge (S fuel) n st =
    match edge n with
    | None => (evs, Ok st')
    | Some n' =>
        (evs ++ events (run_from step edge fuel n' st'),
         outcome (run_from step edge fuel n' st'))
    end.
Proof.
  intros H. cbn [run_from]. rewrite H. unfold bind.
  destruct (edge n) as [n'|].
  - by destruct (run_from step edge fuel n' st').
  - cbn. by rewrite app_nil_r.
Qed.

Lemma run_from_err {node state : Type}
  (step : node -> state -> M state) (edge : node -> option node)
  (fuel : nat) (n : node) (st : state) (evs : list event) (e : exn) :
  step n st = (evs, Err e) ->
  run_from step edge (S fuel) n st = (evs, Err e).
Proof. intros H. cbn [run_from]. by rewrite H. Qed.

(** ** agent.py: what a run computes *)

Section AgentRun.
Variable llm_invoke : list message -> Result string.
Variable py_repr : pyval -> string.

Local Abbreviation step := (Agent.step llm_invoke py_repr).
Local Abbreviation run := (Agent.run llm_invoke py_repr).

Lemma prompt_mock_context :
  Agent.prompt py_repr (Agent.mock_context "patient-123") = Ok mock_prompt.
Proof. vm_compute. reflexivity. Qed.

Lemma step_llm_suggest (st : Agent.AgentState) (q : string) (hist : list message) :
  Agent.context st = Some (Agent.mock_context "patient-123") ->
  Agent.chat_history st = hist ++ [HumanMessage q] ->
  step Agent.n_llm_suggest st =
    match llm_invoke (sent q hist) with
    | Ok r =>
        ([ModelCall (sent q hist)],
         Ok {| Agent.input := Agent.input st; Agent.intent := Agent.intent st;
               Agent.context := Agent.context st; Agent.suggestion := Some r;
               Agent.escalate := Agent.escalate st;
               Agent.chat_history := (hist ++ [HumanMessage q]) ++ [AIMessage (Text r)] |})
    | Err e => ([ModelCall (sent q hist)], Err e)
    end.
Proof.
  intros Hc Hh. unfold Agent.step, Agent.node_fn, Agent.llm_suggest.
  rewrite Hc, Hh. cbn [getitem]. unfold bind at 2, ret at 1.
  rewrite prompt_mock_context. unfold lift at 1, bind at 2.
  change (SystemMessage mock_prompt :: hist ++ [HumanMessage q])
    with (sent q hist).
  destruct (llm_invoke (sent q hist)) as [r|e]; [|reflexivity].
  cbn. unfold Agent.merge. cbn. by rewrite Hc.
Qed.

Lemma run_eq (q : string) (hist : list message) :
  run q hist =
    match llm_invoke (sent q hist) with
    | Ok r =>
        ([ContextLookup "patient-123"; ModelCall (sent q hist)] ++
         (if evaluate r
          then [ProviderTask (Agent.mock_context "patient-123") r] else []),
         Ok (final_state q hist r))
    | Err e => ([ContextLookup "patient-123"; ModelCall (sent q hist)], Err e)
    end.
Proof.
  pose (ctx := Agent.mock_context "patient-123").
  pose (i := Agent.mock_recognize_intent q).
  pose (h := hist ++ [HumanMessage q]).
  unfold Agent.run, Agent.app_invoke, recursion_limit, Agent.entry_point.
  rewrite (run_from_ok _ _ _ _ _
             (Agent.mkState (Some q) (Some i) None None None h) [])
    by reflexivity.
  cbn [Agent.edge].
  rewrite (run_from_ok _ _ _ _ _
             (Agent.mkState (Some q) (Some i) (Some ctx) None None h)
             [ContextLookup "patient-123"])
    by reflexivity.
  cbn [Agent.edge].
  pose proof (step_llm_suggest
                (Agent.mkState (Some q) (Some i) (Some ctx) None None h)
                q hist eq_refl eq_refl) as Hllm.
  cbn [Agent.input Agent.intent Agent.context Agent.escalate] in Hllm.
  destruct (llm_invoke (sent q hist)) as [r|e].
  - rewrite (run_from_ok _ _ _ _ _ _ _ Hllm). cbn [Agent.edge].
    rewrite (run_from_ok _ _ _ _ _
               (Agent.mkState (Some q) (Some i) (Some ctx) (Some r)
                  (Some (evaluate r)) (h ++ [AIMessage (Text r)]))
               (if evaluate r then [ProviderTask ctx r] else [])); cycle 1.
    { unfold Agent.step, Agent.node_fn.
      erewrite escalate_if_needed_eq by reflexivity.
      destruct (evaluate r); reflexivity. }
    cbn [Agent.edge].
    rewrite (run_from_ok _ _ _ _ _ (final_state q hist r) []) by reflexivity.
    cbn [Agent.edge]. unfold events, outcome. cbn [fst snd].
    by rewrite app_nil_r.
  - by rewrite (run_from_err _ _ _ _ _ _ _ Hllm).
Qed.

End AgentRun.

(** ** agent.py: the history only grows *)

Section AgentHistory.
Variable llm_invoke : list message -> Result string.
Variable py_repr : pyval -> string.

Local Abbreviation step := (Agent.step llm_invoke py_repr).
Local Abbreviation run := (Agent.run llm_invoke py_repr).

Local Ltac red_M H :=
  cbv [bind ret lift emit raise getitem Agent.mock_load_context
       Agent.mock_create_provider_task
       Agent.input Agent.intent Agent.context Agent.suggestion
       Agent.escalate Agent.chat_history] in H.

Local Ltac step_inv H :=
  red_M H; try discriminate H; injection H as <- <-;
  cbv [Agent.merge Agent.chat_history Agent.u_chat_history default].

(** Every node leaves the history it found as a prefix of the one it
    writes. *)
Lemma step_history_prefix (n : Agent.node) (st st' : Agent.AgentState)
  (evs : list event) :
  step n st = (evs, Ok st') ->
  exists k, Agent.chat_history st' = Agent.chat_history st ++ k.
Proof.
  destruct st as [inp int ctx sug esc h].
  destruct n; unfold Agent.step, Agent.node_fn; intros H.
  - unfold Agent.receive_query in H.
    destruct inp as [q|]; step_inv H. by eexists.
  - unfold Agent.fetch_context in H.
    destruct int as [i|]; step_inv H. exists []. by rewrite app_nil_r.
  - unfold Agent.llm_suggest in H.
    destruct ctx as [c|]; [|step_inv H]. red_M H.
    destruct (Agent.prompt py_repr c) as [p|e]; [|step_inv H].
    destruct (llm_invoke (SystemMessage p :: h)) as [r|e]; step_inv H.
    by eexists.
  - unfold Agent.escalate_if_needed in H.
    destruct sug as [r|]; [|step_inv H]. red_M H.
    change (any _ Agent.escalation_keywords) with (evaluate r) in H.
    destruct (evaluate r).
    + destruct ctx as [c|]; step_inv H. exists []. by rewrite app_nil_r.
    + step_inv H. exists []. by rewrite app_nil_r.
  - unfold Agent.save_and_respond in H.
    destruct sug as [r|]; step_inv H. exists []. by rewrite app_nil_r.
Qed.

(** C4.  A run that reaches its terminal state ends with a history of
    length [len(priorHistory) + 2]: the prior history, then the incoming
    user message, then the assistant reply.  Along the way no step shrinks
    the history: each node's history extends the one it received. *)
Theorem history_grows_by_two
  (query : string) (priorHistory : list message)
  (evs : list event) (final : Agent.AgentState) :
  run query priorHistory = (evs, Ok final) ->
  length (Agent.chat_history final) = length priorHistory + 2 /\
  (exists reply,
     Agent.suggestion final = Some reply /\
     Agent.chat_history final =
       priorHistory ++ [HumanMessage query; AIMessage (Text reply)]) /\
  (forall n st st' evs',
     step n st = (evs', Ok st') ->
     length (Agent.chat_history st) <= length (Agent.chat_history st') /\
     exists k, Agent.chat_history st' = Agent.chat_history st ++ k).
Proof.
  rewrite run_eq. intros H.
  destruct (llm_invoke (sent query priorHistory)) as [r|e]; [|discriminate].
  injection H as _ <-. cbn [final_state Agent.chat_history Agent.suggestion].
  split; [|split].
  - rewrite !length_app. cbn. lia.
  - exists r. split; [done|]. by rewrite <- app_assoc.
  - intros n st st' evs' Hstep.
    destruct (step_history_prefix n st st' evs' Hstep) as [k Hk].
    split; [|by exists k]. rewrite Hk, length_app. lia.
Qed.

End AgentHistory.

(** A run on which the premise of C4 holds: the model answers. *)
Lemma history_grows_by_two_witness :
  let llm := fun _ : list message => Ok "Try a short walk after dinner." in
  let prior := [HumanMessage "Hi"; AIMessage (Text "Hello, how can I help?")] in
  exists evs final,
    Agent.run llm (fun _ => "") "Any tip?" prior = (evs, Ok final) /\
    length (Agent.chat_history final) = 4.
Proof.
  intros llm prior.
  eexists _, _. split; [reflexivity|].
  refine (proj1 (history_grows_by_two llm (fun _ => "") "Any tip?" prior _ _ _)).
  reflexivity.
Defined.

(** ** agent_graph.py: what a run computes *)

Section AgentGraphRun.
Variable lookup : string -> Result dict.
Variable llm_client : Result unit.
Variable llm_invoke : list message -> Result content.
Variable py_repr : pyval -> string.

Local Abbreviation fetch_patient_context := (AgentGraph.fetch_patient_context lookup).
Local Abbreviation generate_response :=
  (AgentGraph.generate_response llm_client llm_invoke py_repr).
Local Abbreviation invoke_agent :=
  (AgentGraph.invoke_agent lookup llm_client llm_invoke py_repr).

Lemma fetch_patient_context_eq (state : AgentGraph.AgentState) :
  fetch_patient_context state =
    ([ContextLookup (AgentGraph.user_id state)],
     Ok {| AgentGraph.u_messages := None;
           AgentGraph.u_patient_context :=
             Some (resolved lookup (AgentGraph.user_id state));
           AgentGraph.u_response := None |}).
Proof.
  unfold AgentGraph.fetch_patient_context, resolved.
  by destruct (lookup (AgentGraph.user_id state)).
Qed.

Lemma generate_response_eq (state : AgentGraph.AgentState) (msg p : string) :
  AgentGraph.messages state = [HumanMessage msg] ->
  AgentGraph.system_prompt py_repr (AgentGraph.patient_context state) = Ok p ->
  generate_response state =
    (model_events llm_client p msg,
     Ok {| AgentGraph.u_messages :=
             Some [HumanMessage msg;
                   AIMessage (reply_of llm_client llm_invoke p msg)];
           AgentGraph.u_patient_context := None;
           AgentGraph.u_response :=
             Some (reply_of llm_client llm_invoke p msg) |}).
Proof.
  intros Hm Hp. unfold AgentGraph.generate_response, reply_of, model_events.
  rewrite Hm, Hp. unfold full_messages.
  destruct llm_client as [[]|e]; [|reflexivity].
  cbv [lift bind emit ret try_except].
  by destruct (llm_invoke [SystemMessage p; HumanMessage msg]).
Qed.

Lemma generate_response_raises (state : AgentGraph.AgentState) (e : exn) :
  AgentGraph.system_prompt py_repr (AgentGraph.patient_context state) = Err e ->
  generate_response state = ([], Err e).
Proof.
  intros Hp. unfold AgentGraph.generate_response. by rewrite Hp.
Qed.

Lemma invoke_agent_eq (uid msg p : string) (tid : option string) :
  AgentGraph.system_prompt py_repr (resolved lookup uid) = Ok p ->
  invoke_agent uid msg tid =
    (ContextLookup uid :: model_events llm_client p msg,
     Ok {| AgentGraph.r_response := reply_of llm_client llm_invoke p msg;
           AgentGraph.r_user_id := uid;
           AgentGraph.r_thread_id := or_else tid ("thread-" +:+ uid);
           AgentGraph.r_patient_context := resolved lookup uid |}).
Proof.
  intros Hp.
  unfold AgentGraph.invoke_agent, AgentGraph.healthcare_agent_invoke,
    recursion_limit, AgentGraph.entry_point.
  rewrite (run_from_ok _ _ _ _ _
             (AgentGraph.mkState [HumanMessage msg] uid (resolved lookup uid) (Text ""))
             [ContextLookup uid]); cycle 1.
  { unfold AgentGraph.step, AgentGraph.node_fn.
    by rewrite fetch_patient_context_eq. }
  cbn [AgentGraph.edge].
  rewrite (run_from_ok _ _ _ _ _
             (AgentGraph.mkState
                [HumanMessage msg; AIMessage (reply_of llm_client llm_invoke p msg)]
                uid (resolved lookup uid) (reply_of llm_client llm_invoke p msg))
             (model_events llm_client p msg)); cycle 1.
  { unfold AgentGraph.step, AgentGraph.node_fn.
    rewrite (generate_response_eq _ msg p) by done.
    cbv [bind ret]. by rewrite app_nil_r. }
  cbn [AgentGraph.edge]. unfold events, outcome. cbn [fst snd].
  cbv [bind ret try_except AgentGraph.response AgentGraph.patient_context].
  by rewrite app_nil_r.
Qed.

Lemma invoke_agent_raises (uid msg : string) (tid : option string) (e : exn) :
  AgentGraph.system_prompt py_repr (resolved lookup uid) = Err e ->
  invoke_agent uid msg tid = ([ContextLookup uid], Err e).
Proof.
  intros Hp.
  unfold AgentGraph.invoke_agent, AgentGraph.healthcare_agent_invoke,
    recursion_limit, AgentGraph.entry_point.
  rewrite (run_from_ok _ _ _ _ _
             (AgentGraph.mkState [HumanMessage msg] uid (resolved lookup uid) (Text ""))
             [ContextLookup uid]); cycle 1.
  { unfold AgentGraph.step, AgentGraph.node_fn.
    by rewrite fetch_patient_context_eq. }
  cbn [AgentGraph.edge].
  rewrite (run_from_err _ _ _ _ _ [] e); cycle 1.
  { unfold AgentGraph.step, AgentGraph.node_fn.
    by rewrite (generate_response_raises _ e). }
  reflexivity.
Qed.

End AgentGraphRun.

(** The prompts of the two profiles the code itself produces. *)
Lemma system_prompt_fallback (py_repr : pyval -> string) (e : exn) :
  AgentGraph.system_prompt py_repr (AgentGraph.fallback_context e) =
    Ok (AgentGraph.f_system_prompt "Patient" "Unknown" "No data available"
          "" "" "None known").
Proof. reflexivity. Qed.


(** ** Failure of the model *)

(** C2 (as the code has it).  When the model call of agent_graph.py
    raises, the run still completes and the reply is the fixed fallback
    string.  That pipeline has no safety gate.  The gate of agent.py,
    applied to the fallback text, answers [true], since the text contains
    the trigger phrase "urgent"; and in agent.py itself a raising model
    call ends the run with that exception. *)
Theorem model_failure_gives_fallback
  (lookup : string -> Result dict) (llm_client : Result unit)
  (llm_invoke : list message -> Result content) (py_repr : pyval -> string)
  (uid msg p : string) (tid : option string)
  (llm_agent : list message -> Result string)
  (q : string) (hist : list message) (e e' : exn) :
  AgentGraph.system_prompt py_repr (resolved lookup uid) = Ok p ->
  llm_invoke (full_messages p msg) = Err e ->
  llm_agent (sent q hist) = Err e' ->
  (exists res,
     outcome (AgentGraph.invoke_agent lookup llm_client llm_invoke py_repr
                uid msg tid) = Ok res /\
     AgentGraph.r_response res = Text AgentGraph.error_response) /\
  evaluate AgentGraph.error_response = true /\
  contains_ci AgentGraph.error_response "urgent" /\
  outcome (Agent.run llm_agent py_repr q hist) = Err e'.
Proof.
  intros Hp He He'. split; [|split; [|split]].
  - rewrite (invoke_agent_eq _ _ _ _ uid msg p tid Hp).
    eexists. split; [reflexivity|]. cbn [AgentGraph.r_response].
    unfold reply_of. rewrite He. by destruct llm_client.
  - reflexivity.
  - apply (py_in_lower_contains_ci _ "urgent"); reflexivity.
  - by rewrite run_eq, He'.
Qed.

Lemma model_failure_gives_fallback_witness :
  (exists res,
     outcome (AgentGraph.invoke_agent AgentGraph.mock_data (Ok tt)
                (as_content llm_down)
                repr0 "patient-12345" "What should I eat?" None) = Ok res /\
     AgentGraph.r_response res = Text AgentGraph.error_response) /\
  evaluate AgentGraph.error_response = true /\
  contains_ci AgentGraph.error_response "urgent" /\
  outcome (Agent.run llm_down repr0 "Any tip?" [])
    = Err (PyExc "TimeoutError" "backend timed out").
Proof.
  eapply (model_failure_gives_fallback AgentGraph.mock_data (Ok tt)
            (as_content llm_down) repr0 "patient-12345" "What should I eat?"
            _ None llm_down "Any tip?" []);
    reflexivity.
Defined.

(** The claim as the specification words it fails: the gate does not
    answer [false] on the fallback text. *)
Lemma fallback_text_triggers_gate :
  outcome (Agent.escalate_if_needed (gate_state AgentGraph.error_response))
    = Ok (escalate_update true) /\
  evaluate AgentGraph.error_response <> false.
Proof. split; [reflexivity|discriminate]. Qed.

(** ** Failure of the context lookup *)

(** C3.  When the lookup raises, [fetch_patient_context] does not raise:
    it writes the minimal context, with name "Patient", medical history
    "No data available" and the error text under "error"; and the run
    goes on to return a result carrying that context. *)
Theorem lookup_failure_gives_degraded_profile
  (lookup : string -> Result dict) (llm_client : Result unit)
  (llm_invoke : list message -> Result content) (py_repr : pyval -> string)
  (state : AgentGraph.AgentState) (msg : string) (tid : option string)
  (e : exn) :
  lookup (AgentGraph.user_id state) = Err e ->
  (exists profile,
     outcome (AgentGraph.fetch_patient_context lookup state) =
       Ok {| AgentGraph.u_messages := None;
             AgentGraph.u_patient_context := Some profile;
             AgentGraph.u_response := None |} /\
     profile !! "name" = Some (VStr "Patient") /\
     profile !! "medical_history" = Some (VStr "No data available") /\
     profile !! "error" = Some (VStr (str_exn e)) /\
     exists res,
       outcome (AgentGraph.invoke_agent lookup llm_client llm_invoke py_repr
                  (AgentGraph.user_id state) msg tid) = Ok res /\
       AgentGraph.r_patient_context res = profile).
Proof.
  intros He. exists (AgentGraph.fallback_context e).
  assert (resolved lookup (AgentGraph.user_id state)
          = AgentGraph.fallback_context e) as Hr.
  { unfold resolved. by rewrite He. }
  split; [|split; [|split; [|split]]]; [|reflexivity..|].
  - rewrite fetch_patient_context_eq. cbn. by rewrite Hr.
  - erewrite invoke_agent_eq.
    + eexists. split; [reflexivity|]. done.
    + rewrite Hr. apply system_prompt_fallback.
Qed.

Lemma lookup_failure_gives_degraded_profile_witness :
  exists profile,
    outcome (AgentGraph.fetch_patient_context lookup_down
               (AgentGraph.mkState [HumanMessage "Hi"] "patient-12345" ∅ (Text ""))) =
      Ok {| AgentGraph.u_messages := None;
            AgentGraph.u_patient_context := Some profile;
            AgentGraph.u_response := None |} /\
    profile !! "name" = Some (VStr "Patient") /\
    profile !! "medical_history" = Some (VStr "No data available") /\
    profile !! "error" = Some (VStr "database unreachable") /\
    exists res,
      outcome (AgentGraph.invoke_agent lookup_down (Ok tt)
                 (as_content llm_answers) repr0
                 "patient-12345" "Hi" None) = Ok res /\
      AgentGraph.r_patient_context res = profile.
Proof.
  apply (lookup_failure_gives_degraded_profile lookup_down (Ok tt)
           (as_content llm_answers) repr0 (AgentGraph.mkState [HumanMessage "Hi"] "patient-12345" ∅ (Text ""))
           "Hi" None (PyExc "ConnectionError" "database unreachable")).
  reflexivity.
Defined.

(** ** The reply of a run *)




(** ** Validation of the user identifier *)

(** C8 (as the code has it).  The check of the user identifier is made by
    the chat endpoint, the caller of [invoke_agent]: on an empty
    identifier it raises the HTTP 400 error before anything else happens,
    so no event (context lookup, model call) occurs. *)
Theorem chat_rejects_empty_user_id
  (lookup : string -> Result dict) (llm_client : Result unit)
  (llm_invoke : list message -> Result content) (py_repr : pyval -> string)
  (uuid_hex8 : string) (validation_error : content -> string)
  (request : BackendApi.ChatRequest) :
  BackendApi.user_id request = "" ->
  BackendApi.chat lookup llm_client llm_invoke py_repr uuid_hex8
    validation_error request =
    ([], Err (HTTPException 400 "user_id is required and cannot be empty")).
Proof.
  intros H. unfold BackendApi.chat. by rewrite H.
Qed.

Lemma chat_rejects_empty_user_id_witness :
  BackendApi.chat AgentGraph.mock_data (Ok tt) (as_content llm_answers) repr0
    "0a1b2c3d" validation_error0
    (BackendApi.mkRequest "" "What should I eat?" None) =
    ([], Err (HTTPException 400 "user_id is required and cannot be empty")).
Proof.
  apply (chat_rejects_empty_user_id AgentGraph.mock_data (Ok tt)
           (as_content llm_answers) repr0 "0a1b2c3d" validation_error0
           (BackendApi.mkRequest "" "What should I eat?" None)).
  reflexivity.
Defined.

(** The same holds for an identifier made of white space only. *)
Lemma chat_rejects_blank_user_id
  (lookup : string -> Result dict) (llm_client : Result unit)
  (llm_invoke : list message -> Result content) (py_repr : pyval -> string)
  (uuid_hex8 : string) (validation_error : content -> string)
  (request : BackendApi.ChatRequest) :
  strip (BackendApi.user_id request) = "" ->
  BackendApi.chat lookup llm_client llm_invoke py_repr uuid_hex8
    validation_error request =
    ([], Err (HTTPException 400 "user_id is required and cannot be empty")).
Proof.
  intros H. unfold BackendApi.chat. rewrite H.
  by destruct (truthy (BackendApi.user_id request)).
Qed.

(** The run operation itself makes no such check: [invoke_agent] on the
    empty identifier looks the context up, calls the model and returns a
    result. *)
Lemma invoke_agent_accepts_empty_user_id :
  exists p res,
    AgentGraph.invoke_agent AgentGraph.mock_data (Ok tt)
      (as_content llm_answers) repr0 "" "What should I eat?" None =
    ([ContextLookup ""; ModelCall (full_messages p "What should I eat?")],
     Ok res) /\
    AgentGraph.r_response res = Text "Try a short walk after dinner." /\
    AgentGraph.r_user_id res = "".
Proof. eexists _, _. split; [reflexivity|]. split; reflexivity. Qed.

(** ** The resolved context *)

(** The profile of agent.py, key by key: it echoes the identifier it is
    given and is fixed otherwise; it has no other key, and no age. *)
Lemma mock_context_lookup (patient_id k : string) :
  Agent.mock_context patient_id !! k =
    if decide (k = "patient_id") then Some (VStr patient_id)
    else if decide (k = "name") then Some (VStr "Jane Doe")
    else if decide (k = "recent_visit") then Some (VStr "2025-10-28")
    else if decide (k = "diagnosis") then Some (VStr "Type 2 Diabetes")
    else if decide (k = "medication") then Some (VStr "Metformin 500mg")
    else if decide (k = "lab_results")
         then Some (VDict [("hba1c", VStr "7.2%")])
    else None.
Proof.
  unfold Agent.mock_context.
  repeat (rewrite lookup_insert; case_decide; [by subst|]).
  rewrite lookup_empty.
  repeat (case_decide; [congruence|]). done.
Qed.

(** C9 (as the code has it).  In agent_graph.py the context resolved
    today is a constant: the node writes the same profile for any two
    states, whatever their user identifiers: name "Jane Doe", age 45, the
    Type 2 Diabetes history and the rest of the mock record.  In agent.py
    the profile of [mock_load_context] echoes the identifier it is passed
    under the key "patient_id" and is fixed in every other key (name
    "Jane Doe", the visit, the diagnosis, the medication, the laboratory
    result; no age); [fetch_context] always passes "patient-123", so the
    context a run resolves is that one profile. *)
Theorem resolved_context_fixed_up_to_patient_id
  (st1 st2 : AgentGraph.AgentState) (s1 s2 : Agent.AgentState)
  (i1 i2 u1 u2 : string) :
  Agent.intent s1 = Some i1 ->
  Agent.intent s2 = Some i2 ->
  (outcome (AgentGraph.fetch_patient_context AgentGraph.mock_data st1) =
   outcome (AgentGraph.fetch_patient_context AgentGraph.mock_data st2)) /\
  (exists profile,
     outcome (AgentGraph.fetch_patient_context AgentGraph.mock_data st1) =
       Ok {| AgentGraph.u_messages := None;
             AgentGraph.u_patient_context := Some profile;
             AgentGraph.u_response := None |} /\
     profile !! "name" = Some (VStr "Jane Doe") /\
     profile !! "age" = Some (VInt 45) /\
     profile !! "email" = Some (VStr "jane.doe@example.com") /\
     profile !! "medical_history" =
       Some (VStr "Type 2 Diabetes diagnosed in 2020") /\
     profile !! "diagnoses" =
       Some (VList [VStr "Type 2 Diabetes"; VStr "Hypertension"]) /\
     profile !! "medications" =
       Some (VList [VStr "Metformin 500mg twice daily";
                    VStr "Lisinopril 10mg daily"]) /\
     profile !! "allergies" = Some (VList [VStr "Penicillin"]) /\
     profile !! "last_visit" = Some (VStr "2025-12-01") /\
     profile !! "blockchain_hash" = Some (VStr "0x1234567890abcdef...")) /\
  (outcome (Agent.fetch_context s1) = outcome (Agent.fetch_context s2) /\
   outcome (Agent.fetch_context s1) =
     Ok {| Agent.u_input := None; Agent.u_intent := None;
           Agent.u_context := Some (Agent.mock_context "patient-123");
           Agent.u_suggestion := None; Agent.u_escalate := None;
           Agent.u_chat_history := None |}) /\
  (exists profile,
     Agent.mock_load_context u1 i1 = ([ContextLookup u1], Ok profile) /\
     profile !! "patient_id" = Some (VStr u1) /\
     profile !! "name" = Some (VStr "Jane Doe") /\
     profile !! "recent_visit" = Some (VStr "2025-10-28") /\
     profile !! "diagnosis" = Some (VStr "Type 2 Diabetes") /\
     profile !! "medication" = Some (VStr "Metformin 500mg") /\
     profile !! "lab_results" = Some (VDict [("hba1c", VStr "7.2%")]) /\
     profile !! "age" = None /\
     (forall k, k <> "patient_id" ->
        profile !! k = Agent.mock_context u2 !! k)).
Proof.
  intros H1 H2. split; [|split; [|split]].
  - by rewrite !fetch_patient_context_eq.
  - rewrite fetch_patient_context_eq. eexists. split; [reflexivity|].
    unfold resolved, AgentGraph.mock_data. repeat split.
  - unfold Agent.fetch_context. by rewrite H1, H2.
  - exists (Agent.mock_context u1). split; [reflexivity|].
    repeat (split; [by rewrite mock_context_lookup|]).
    intros k Hk. rewrite !mock_context_lookup. by case_decide.
Qed.

Lemma resolved_context_fixed_up_to_patient_id_witness :
  outcome (AgentGraph.fetch_patient_context AgentGraph.mock_data
             (AgentGraph.mkState [HumanMessage "Hi"] "patient-12345" ∅ (Text ""))) =
  outcome (AgentGraph.fetch_patient_context AgentGraph.mock_data
             (AgentGraph.mkState [HumanMessage "Hello"] "someone-else" ∅ (Text "")))
  /\
  outcome (Agent.fetch_context
             (Agent.mkState (Some "Hi") (Some "general_chat") None None None [])) =
  outcome (Agent.fetch_context
             (Agent.mkState (Some "Any tip?") (Some "suggestion_request") None
                None None [])).
Proof.
  destruct (resolved_context_fixed_up_to_patient_id
              (AgentGraph.mkState [HumanMessage "Hi"] "patient-12345" ∅ (Text ""))
              (AgentGraph.mkState [HumanMessage "Hello"] "someone-else" ∅ (Text ""))
              (Agent.mkState (Some "Hi") (Some "general_chat") None None None [])
              (Agent.mkState (Some "Any tip?") (Some "suggestion_request") None
                 None None [])
              "general_chat" "suggestion_request" "patient-123" "someone-else"
              eq_refl eq_refl) as (H1 & _ & (H3 & _) & _).
  split; [exact H1|exact H3].
Defined.

(** The claim as the specification words it fails for the context
    builder of agent.py: two identifiers give two profiles, which differ
    under "patient_id"; and that profile holds no age. *)
Lemma mock_load_context_echoes_patient_id :
  outcome (Agent.mock_load_context "patient-123" "general_chat") <>
  outcome (Agent.mock_load_context "someone-else" "general_chat") /\
  Agent.mock_context "patient-123" !! "patient_id" = Some (VStr "patient-123") /\
  Agent.mock_context "someone-else" !! "patient_id"
    = Some (VStr "someone-else") /\
  Agent.mock_context "patient-123" !! "age" = None.
Proof.
  split; [|by rewrite !mock_context_lookup].
  intros H.
  apply (f_equal (fun r : Result dict =>
                    match r with
                    | Ok c => c !! "patient_id"
                    | Err _ => None
                    end)) in H.
  cbv [outcome snd Agent.mock_load_context bind emit ret] in H.
  rewrite !mock_context_lookup in H. discriminate H.
Qed.

(** ** The intent *)

Lemma mock_recognize_intent_cases (query : string) :
  (Agent.mock_recognize_intent query = "suggestion_request" <->
   contains_ci query "suggestion" \/ contains_ci query "tip") /\
  (Agent.mock_recognize_intent query = "info_request" <->
   ~ (contains_ci query "suggestion" \/ contains_ci query "tip") /\
   (contains_ci query "explain" \/ contains_ci query "what is")) /\
  (Agent.mock_recognize_intent query = "general_chat" <->
   ~ (contains_ci query "suggestion" \/ contains_ci query "tip") /\
   ~ (contains_ci query "explain" \/ contains_ci query "what is")).
Proof.
  unfold Agent.mock_recognize_intent.
  rewrite <- !(py_in_lower_contains_ci query) by reflexivity.
  destruct (py_in "suggestion" (lower query)),
           (py_in "tip" (lower query)),
           (py_in "explain" (lower query)),
           (py_in "what is" (lower query)); cbn [orb];
    intuition (discriminate || congruence).
Qed.

Section AgentIntent.
Variable llm_invoke : list message -> Result string.
Variable py_repr : pyval -> string.

Local Abbreviation step := (Agent.step llm_invoke py_repr).
Local Abbreviation run_from :=
  (Runtime.run_from (Agent.step llm_invoke py_repr) Agent.edge).

(** A node after [receive_query] does the same whatever the intent, and
    leaves the intent as it found it. *)
Lemma step_with_intent (n : Agent.node) (st : Agent.AgentState) (i j : string) :
  n <> Agent.n_receive_query ->
  step n (with_intent (Some i) st) =
    mapM (with_intent (Some i)) (step n (with_intent (Some j) st)).
Proof.
  intros Hn. destruct st as [inp int ctx sug esc h].
  destruct n; [done|..]; unfold Agent.step, Agent.node_fn, with_intent, mapM;
    cbn [Agent.input Agent.intent Agent.context Agent.suggestion
         Agent.escalate Agent.chat_history].
  - reflexivity.
  - unfold Agent.llm_suggest.
    cbn [Agent.input Agent.intent Agent.context Agent.suggestion
         Agent.escalate Agent.chat_history].
    destruct ctx as [c|]; [|reflexivity].
    cbv [getitem bind ret lift emit].
    destruct (Agent.prompt py_repr c) as [p|e]; [|reflexivity].
    by destruct (llm_invoke (SystemMessage p :: h)).
  - unfold Agent.escalate_if_needed.
    cbn [Agent.input Agent.intent Agent.context Agent.suggestion
         Agent.escalate Agent.chat_history].
    destruct sug as [r|]; [|reflexivity].
    cbv [getitem bind ret lift emit Agent.mock_create_provider_task].
    change (any _ Agent.escalation_keywords) with (evaluate r).
    destruct (evaluate r); [|reflexivity].
    by destruct ctx.
  - unfold Agent.save_and_respond.
    cbn [Agent.input Agent.intent Agent.context Agent.suggestion
         Agent.escalate Agent.chat_history].
    by destruct sug.
Qed.

Lemma with_intent_twice (i j : option string) (st : Agent.AgentState) :
  with_intent i (with_intent j st) = with_intent i st.
Proof. reflexivity. Qed.

Lemma edge_not_receive_query (n n' : Agent.node) :
  Agent.edge n = Some n' -> n' <> Agent.n_receive_query.
Proof.
  destruct n; intros H; try discriminate H; injection H as <-; discriminate.
Qed.

Lemma step_keeps_intent (n : Agent.node) (st st' : Agent.AgentState)
  (evs : list event) :
  n <> Agent.n_receive_query ->
  step n st = (evs, Ok st') ->
  Agent.intent st' = Agent.intent st.
Proof.
  intros Hn. destruct st as [inp int ctx sug esc h].
  destruct n; [done|..]; unfold Agent.step, Agent.node_fn; intros H.
  - unfold Agent.fetch_context, Agent.mock_load_context in H.
    cbv [getitem bind ret lift emit raise Agent.intent] in H.
    destruct int; [|discriminate]. by injection H as _ <-.
  - unfold Agent.llm_suggest in H.
    cbv [getitem bind ret lift emit raise Agent.context Agent.chat_history] in H.
    destruct ctx as [c|]; [|discriminate].
    destruct (Agent.prompt py_repr c) as [p|e]; [|discriminate].
    destruct (llm_invoke (SystemMessage p :: h)); [|discriminate].
    by injection H as _ <-.
  - unfold Agent.escalate_if_needed in H.
    cbv [getitem bind ret lift emit raise Agent.suggestion Agent.context
         Agent.mock_create_provider_task] in H.
    destruct sug as [r|]; [|discriminate].
    change (any _ Agent.escalation_keywords) with (evaluate r) in H.
    destruct (evaluate r); [destruct ctx; [|discriminate]|];
      by injection H as _ <-.
  - unfold Agent.save_and_respond in H.
    cbv [getitem bind ret lift emit raise Agent.suggestion] in H.
    destruct sug; [|discriminate]. by injection H as _ <-.
Qed.

(** The rest of a run, from any node after [receive_query], commutes with
    a change of intent. *)
Lemma run_from_with_intent (fuel : nat) :
  forall (n : Agent.node) (st : Agent.AgentState) (i j : string),
  n <> Agent.n_receive_query ->
  run_from fuel n (with_intent (Some i) st) =
    mapM (with_intent (Some i)) (run_from fuel n (with_intent (Some j) st)).
Proof.
  induction fuel as [|fuel IH]; intros n st i j Hn; [reflexivity|].
  cbn [Runtime.run_from].
  rewrite (step_with_intent n st i j Hn).
  destruct (step n (with_intent (Some j) st)) as [evs [st'|e]] eqn:Hstep;
    [|reflexivity].
  pose proof (step_keeps_intent _ _ _ _ Hn Hstep) as Hi.
  cbn [with_intent Agent.intent] in Hi.
  assert (st' = with_intent (Some j) st') as Hst'.
  { destruct st'. cbn in Hi. by subst. }
  unfold mapM at 1. cbn [events outcome fst snd]. unfold bind.
  destruct (Agent.edge n) as [n'|] eqn:En; [|reflexivity].
  rewrite (IH n' st' i j (edge_not_receive_query _ _ En)).
  rewrite <- Hst'.
  by destruct (run_from fuel n' st') as [evs' [st''|e]].
Qed.

End AgentIntent.

(** C10.  The first node writes one intent for the incoming message:
    "suggestion_request" when the message, letter case ignored, contains
    "suggestion" or "tip"; otherwise "info_request" when it contains
    "explain" or "what is"; otherwise "general_chat".  The intent changes
    nothing afterwards: the context loaded does not depend on it, and the
    rest of the run from [fetch_context] emits the same events and ends in
    the same state or exception, but for the intent field itself. *)
Theorem intent_is_classified_and_unused
  (llm_invoke : list message -> Result string) (py_repr : pyval -> string)
  (state st : Agent.AgentState) (query patient_id i1 i2 : string)
  (fuel : nat) :
  Agent.input state = Some query ->
  (exists intent,
     outcome (Agent.receive_query state) =
       Ok {| Agent.u_input := None; Agent.u_intent := Some intent;
             Agent.u_context := None; Agent.u_suggestion := None;
             Agent.u_escalate := None;
             Agent.u_chat_history :=
               Some (Agent.chat_history state ++ [HumanMessage query]) |} /\
     (intent = "suggestion_request" <->
      contains_ci query "suggestion" \/ contains_ci query "tip") /\
     (intent = "info_request" <->
      ~ (contains_ci query "suggestion" \/ contains_ci query "tip") /\
      (contains_ci query "explain" \/ contains_ci query "what is")) /\
     (intent = "general_chat" <->
      ~ (contains_ci query "suggestion" \/ contains_ci query "tip") /\
      ~ (contains_ci query "explain" \/ contains_ci query "what is"))) /\
  Agent.mock_load_context patient_id i1 = Agent.mock_load_context patient_id i2 /\
  run_from (Agent.step llm_invoke py_repr) Agent.edge fuel
    Agent.n_fetch_context (with_intent (Some i1) st) =
  mapM (with_intent (Some i1))
    (run_from (Agent.step llm_invoke py_repr) Agent.edge fuel
       Agent.n_fetch_context (with_intent (Some i2) st)).
Proof.
  intros Hq. split; [|split].
  - exists (Agent.mock_recognize_intent query). split.
    + unfold Agent.receive_query. by rewrite Hq.
    + apply mock_recognize_intent_cases.
  - reflexivity.
  - by apply run_from_with_intent.
Qed.

Lemma intent_is_classified_and_unused_witness :
  let query := "Any TIPS for me?" in
  exists intent,
    outcome (Agent.receive_query (Agent.inputs query [])) =
      Ok {| Agent.u_input := None; Agent.u_intent := Some intent;
            Agent.u_context := None; Agent.u_suggestion := None;
            Agent.u_escalate := None;
            Agent.u_chat_history := Some [HumanMessage query] |} /\
    (intent = "suggestion_request" <->
     contains_ci query "suggestion" \/ contains_ci query "tip").
Proof.
  intros query.
  destruct (intent_is_classified_and_unused llm_answers repr0
              (Agent.inputs query []) (Agent.inputs query [])
              query "patient-123" "info_request" "general_chat"
              recursion_limit eq_refl) as [(intent & Hout & Hs & _) _].
  exists intent. split; [exact Hout|exact Hs].
Defined.

(** ** The system prompt of agent_graph.py *)

Lemma occurs_skip (t x p : string) : occurs t p -> occurs t (x +:+ p).
Proof.
  intros (pre & post & ->). exists (x +:+ pre), post. by rewrite sapp_assoc.
Qed.

Lemma contains_ci_py_in (r kw : string) :
  contains_ci r kw -> py_in (lower kw) (lower r) = true.
Proof.
  intros (pre & mid & post & -> & H). apply py_in_spec.
  exists (lower pre), (lower post). by rewrite !lower_app, H.
Qed.

Lemma generate_response_events
  (llm_client : Result unit) (llm_invoke : list message -> Result content)
  (py_repr : pyval -> string) (state : AgentGraph.AgentState) :
  events (AgentGraph.generate_response llm_client llm_invoke py_repr state) =
    match AgentGraph.system_prompt py_repr (AgentGraph.patient_context state),
          llm_client with
    | Ok p, Ok _ => [ModelCall (SystemMessage p :: AgentGraph.messages state)]
    | _, _ => []
    end.
Proof.
  unfold AgentGraph.generate_response.
  destruct (AgentGraph.system_prompt _ _) as [p|e]; [|reflexivity].
  destruct llm_client as [[]|e]; [|reflexivity].
  cbv [lift bind emit ret try_except events fst].
  by destruct (llm_invoke _).
Qed.

(** C6.  The system prompt is a function of the profile alone.  Take two
    runs of [generate_response] on states with the same profile, whatever
    their messages, user identifiers, clients and models: the model calls
    they make carry the same system message, the prompt composed from the
    profile.  Composing emits no event: a run whose client cannot be
    built emits nothing. *)
Theorem composed_prompt_depends_only_on_profile
  (client1 client2 : Result unit)
  (llm1 llm2 : list message -> Result content) (py_repr : pyval -> string)
  (st1 st2 : AgentGraph.AgentState) (msgs1 msgs2 : list message) :
  AgentGraph.patient_context st1 = AgentGraph.patient_context st2 ->
  In (ModelCall msgs1)
     (events (AgentGraph.generate_response client1 llm1 py_repr st1)) ->
  In (ModelCall msgs2)
     (events (AgentGraph.generate_response client2 llm2 py_repr st2)) ->
  (exists p,
     AgentGraph.system_prompt py_repr (AgentGraph.patient_context st1) = Ok p /\
     msgs1 = SystemMessage p :: AgentGraph.messages st1 /\
     msgs2 = SystemMessage p :: AgentGraph.messages st2) /\
  (forall e,
     events (AgentGraph.generate_response (Err e) llm1 py_repr st1) = []).
Proof.
  intros Hctx H1 H2. rewrite generate_response_events in H1, H2.
  rewrite <- Hctx in H2. split.
  - destruct (AgentGraph.system_prompt _ _) as [p|e]; [|done].
    exists p. split; [done|].
    destruct client1 as [[]|?]; [|done]. destruct client2 as [[]|?]; [|done].
    destruct H1 as [H1|[]], H2 as [H2|[]].
    injection H1 as <-. injection H2 as <-. done.
  - intros e. rewrite generate_response_events.
    by destruct (AgentGraph.system_prompt _ _).
Qed.

Lemma composed_prompt_depends_only_on_profile_witness :
  exists p,
    AgentGraph.system_prompt repr0 (resolved AgentGraph.mock_data "u1") = Ok p /\
    full_messages p "What should I eat?"
      = [SystemMessage p; HumanMessage "What should I eat?"] /\
    full_messages p "Is coffee fine?"
      = [SystemMessage p; HumanMessage "Is coffee fine?"].
Proof.
  destruct (composed_prompt_depends_only_on_profile (Ok tt) (Ok tt)
              (as_content llm_answers) (as_content llm_down) repr0
              (AgentGraph.mkState [HumanMessage "What should I eat?"] "u1"
                 (resolved AgentGraph.mock_data "u1") (Text ""))
              (AgentGraph.mkState [HumanMessage "Is coffee fine?"] "u2"
                 (resolved AgentGraph.mock_data "u2") (Text ""))
              _ _ eq_refl (or_introl eq_refl) (or_introl eq_refl))
    as [(p & Hp & H1 & H2) _].
  exists p. split; [exact Hp|]. split; reflexivity.
Defined.

(** C7 (as the code has it).  An attribute the profile lacks is never left
    out of the prompt: its place is filled with a fixed text, which is
    "None on record" for the diagnoses and the medications, "Patient" for
    the name, "Unknown" for the age, "No medical history available" for
    the medical history and "None known" for the allergies. *)
Theorem missing_attribute_gets_placeholder
  (py_repr : pyval -> string) (profile : dict) (a : attribute) (p : string) :
  profile !! attr_key a = None ->
  AgentGraph.system_prompt py_repr profile = Ok p ->
  occurs (line a (placeholder a)) p.
Proof.
  intros Hmiss Hp. unfold AgentGraph.system_prompt in Hp.
  destruct a; cbn [attr_key] in Hmiss; rewrite Hmiss in Hp;
    cbn [default join_val str_items join] in Hp;
    repeat match type of Hp with
    | match ?j with Ok _ => _ | Err _ => _ end = _ =>
        destruct j as [?|?]; [|discriminate Hp]
    end;
    injection Hp as <-; unfold AgentGraph.f_system_prompt, line, placeholder.
  - do 3 apply occurs_skip. eexists "", _. reflexivity.
  - do 5 apply occurs_skip. eexists "**, ", _. reflexivity.
  - do 12 apply occurs_skip. eexists "", _. reflexivity.
  - do 15 apply occurs_skip. eexists "", _. reflexivity.
  - do 18 apply occurs_skip. eexists "", _. reflexivity.
  - do 21 apply occurs_skip. eexists "", _. reflexivity.
Qed.

Lemma missing_attribute_gets_placeholder_witness :
  occurs (line Allergies (placeholder Allergies))
    (AgentGraph.f_system_prompt "Patient" "Unknown" "No data available"
       "" "" "None known").
Proof.
  exact (missing_attribute_gets_placeholder repr0
           (AgentGraph.fallback_context (PyExc "ConnectionError" "down"))
           Allergies _ eq_refl eq_refl).
Defined.

(** The claim as the specification words it fails: on the empty profile
    the name is rendered as "Patient", and "none on record" stands at the
    place of two attributes only. *)
Lemma missing_name_is_not_none_on_record :
  exists p,
    AgentGraph.system_prompt repr0 ∅ = Ok p /\
    occurs "You are currently speaking to **Patient**, who is **Unknown years old**." p /\
    ~ contains_ci p (line Name "none on record") /\
    ~ contains_ci p (line Age "none on record") /\
    ~ contains_ci p (line MedicalHistory "none on record") /\
    ~ contains_ci p (line Allergies "none on record").
Proof.
  eexists. split; [reflexivity|]. split.
  - apply py_in_spec. reflexivity.
  - repeat split; intros H%contains_ci_py_in; discriminate H.
Qed.

(** ** agent.py: more on the gate and on a run *)

(** The gate creates a provider task exactly when it escalates, and the
    task carries the context of the state and the reply. *)
Theorem gate_notifies_iff_escalates
  (state : Agent.AgentState) (r : string) (ctx : dict) (ev : event) :
  Agent.suggestion state = Some r ->
  Agent.context state = Some ctx ->
  In ev (events (Agent.escalate_if_needed state)) <->
  evaluate r = true /\ ev = ProviderTask ctx r.
Proof.
  intros Hs Hc. rewrite (escalate_if_needed_eq state r ctx Hs Hc).
  unfold events. cbn [fst]. destruct (evaluate r); cbn [In].
  - split; [intros [<-|[]]; by split|intros [_ ->]; by left].
  - split; [done|]. by intros [? _].
Qed.

Lemma gate_notifies_iff_escalates_witness :
  In (ProviderTask ∅ "Please ask about the DOSAGE")
     (events (Agent.escalate_if_needed (gate_state "Please ask about the DOSAGE"))).
Proof.
  apply (gate_notifies_iff_escalates
           (gate_state "Please ask about the DOSAGE") _ ∅ _ eq_refl eq_refl).
  split; reflexivity.
Defined.

(** With no context in the state the gate still answers [false] on a
    reply without a trigger phrase, but raises [KeyError('context')] on a
    reply with one: the context is read only to create the task. *)
Theorem gate_without_context
  (state : Agent.AgentState) (r : string) :
  Agent.suggestion state = Some r ->
  Agent.context state = None ->
  Agent.escalate_if_needed state =
    if evaluate r
    then ([], Err (PyExc "KeyError" "'context'"))
    else ([], Ok (escalate_update false)).
Proof.
  intros Hs Hc. unfold Agent.escalate_if_needed. rewrite Hs, Hc.
  cbn [getitem]. unfold bind at 1, ret at 1.
  change (any _ Agent.escalation_keywords) with (evaluate r).
  by destruct (evaluate r).
Qed.

Lemma gate_without_context_witness :
  Agent.escalate_if_needed
    (Agent.mkState None None None (Some "This is urgent") None []) =
  ([], Err (PyExc "KeyError" "'context'")).
Proof.
  exact (gate_without_context
           (Agent.mkState None None None (Some "This is urgent") None [])
           "This is urgent" eq_refl eq_refl).
Defined.

Lemma contains_ci_app (a r b kw : string) :
  contains_ci r kw -> contains_ci (a +:+ r +:+ b) kw.
Proof.
  intros (pre & mid & post & -> & H).
  exists (a +:+ pre), mid, (post +:+ b). split; [|done].
  by rewrite !sapp_assoc.
Qed.

(** Text added before or after a reply never removes an escalation. *)
Theorem evaluate_monotone (a r b : string) :
  evaluate r = true -> evaluate (a +:+ r +:+ b) = true.
Proof.
  rewrite !evaluate_spec. intros (kw & Hin & H).
  exists kw. split; [done|]. by apply contains_ci_app.
Qed.

Lemma evaluate_monotone_witness :
  evaluate ("Dear Jane, " +:+ "this is URGENT" +:+ ". Take care.") = true.
Proof. apply evaluate_monotone. reflexivity. Defined.

Section AgentRunMore.
Variable llm_invoke : list message -> Result string.
Variable py_repr : pyval -> string.

Local Abbreviation run := (Agent.run llm_invoke py_repr).

(** A run that completes escalates exactly when the reply of the model
    contains a trigger phrase, and the provider task is among its events
    exactly then.  The terminal state holds the reply, the intent of the
    message, the mock context, and an [input] reset to [None]. *)
Theorem run_escalates_iff_reply_triggers
  (q : string) (hist : list message)
  (evs : list event) (final : Agent.AgentState) :
  run q hist = (evs, Ok final) ->
  exists r,
    llm_invoke (SystemMessage mock_prompt :: hist ++ [HumanMessage q]) = Ok r /\
    Agent.suggestion final = Some r /\
    Agent.escalate final = Some (evaluate r) /\
    (In (ProviderTask (Agent.mock_context "patient-123") r) evs <->
     Agent.escalate final = Some true) /\
    Agent.input final = None /\
    Agent.intent final = Some (Agent.mock_recognize_intent q) /\
    Agent.context final = Some (Agent.mock_context "patient-123").
Proof.
  rewrite run_eq. fold (sent q hist).
  destruct (llm_invoke (sent q hist)) as [r|e]; [|discriminate].
  intros H. injection H as <- <-. exists r.
  cbn [final_state Agent.suggestion Agent.escalate Agent.input Agent.intent
       Agent.context].
  repeat split; try done.
  - destruct (evaluate r); [done|].
    cbn. intros [H|[H|[]]]; discriminate H.
  - intros H. injection H as ->. cbn. auto.
Qed.

(** Whatever the message, the history and the model, a run looks up the
    context of "patient-123", then calls the model once, with the system
    prompt first, then the prior history, then the new message; a provider
    task may follow, and only when the run completes. *)
Theorem run_effects (q : string) (hist : list message) :
  exists p tail,
    Agent.prompt py_repr (Agent.mock_context "patient-123") = Ok p /\
    events (run q hist) =
      ContextLookup "patient-123"
      :: ModelCall (SystemMessage p :: hist ++ [HumanMessage q]) :: tail /\
    (tail = [] \/
     exists r, tail = [ProviderTask (Agent.mock_context "patient-123") r] /\
               exists final, outcome (run q hist) = Ok final).
Proof.
  exists mock_prompt. rewrite run_eq. fold (sent q hist).
  destruct (llm_invoke (sent q hist)) as [r|e].
  - exists (if evaluate r
            then [ProviderTask (Agent.mock_context "patient-123") r] else []).
    split; [apply prompt_mock_context|]. split; [reflexivity|].
    destruct (evaluate r); [right|by left].
    exists r. split; [done|]. by eexists.
  - exists []. split; [apply prompt_mock_context|]. split; [reflexivity|by left].
Qed.

End AgentRunMore.

Lemma run_escalates_iff_reply_triggers_witness :
  exists r,
    llm_answers (SystemMessage mock_prompt :: [] ++ [HumanMessage "Any tip?"])
      = Ok r /\
    evaluate r = false.
Proof.
  destruct (run_escalates_iff_reply_triggers llm_answers repr0 "Any tip?" []
              _ _ eq_refl) as (r & Hr & _).
  exists r. split; [exact Hr|].
  injection Hr as <-. reflexivity.
Defined.

(** ** backend_api.py: the chat endpoint *)

Lemma lstrip_blank (s : string) : blank s = true -> lstrip s = "".
Proof.
  induction s as [|c s IH]; [done|]. cbn [blank lstrip].
  intros [Hc Hs]%andb_true_iff. rewrite Hc. auto.
Qed.

Lemma rstrip_empty_blank (s : string) : rstrip s = "" -> blank s = true.
Proof.
  induction s as [|c s IH]; [done|]. cbn [blank rstrip].
  destruct (rstrip s) as [|c' r]; [|discriminate].
  destruct (is_space c); [|discriminate]. intros _. by rewrite IH.
Qed.

Lemma lstrip_not_blank (s : string) :
  lstrip s = "" \/ blank (lstrip s) = false.
Proof.
  induction s as [|c s IH]; [by left|]. cbn [lstrip].
  destruct (is_space c) eqn:Hc; [exact IH|].
  right. cbn [blank]. by rewrite Hc.
Qed.

Lemma lstrip_empty_blank (s : string) : lstrip s = "" -> blank s = true.
Proof.
  induction s as [|c s IH]; [done|]. cbn [lstrip blank].
  destruct (is_space c); [|discriminate]. auto.
Qed.

(** [s.strip()] is empty exactly for a string of white space. *)
Lemma strip_empty_iff_blank (s : string) : strip s = "" <-> blank s = true.
Proof.
  unfold strip. split.
  - intros H%rstrip_empty_blank.
    destruct (lstrip_not_blank s) as [H'|H']; [|congruence].
    by apply lstrip_empty_blank.
  - intros H. by rewrite (lstrip_blank s H).
Qed.

(** The test [not s or not s.strip()] of the endpoints. *)
Lemma not_or_not_strip (s : string) :
  negb (truthy s) || negb (truthy (strip s)) = blank s.
Proof.
  destruct (blank s) eqn:Hb.
  - apply strip_empty_iff_blank in Hb. rewrite Hb. cbn. apply orb_true_r.
  - destruct s as [|c s]; [discriminate|].
    destruct (strip (String c s)) eqn:Hs; [|reflexivity].
    apply strip_empty_iff_blank in Hs. congruence.
Qed.

Lemma or_else_some_nonempty (c : ascii) (t d : string) :
  or_else (Some (String c t)) d = String c t.
Proof. reflexivity. Qed.

Lemma or_else_nonempty (x : option string) (c : ascii) (d : string) :
  exists c' t, or_else x (String c d) = String c' t.
Proof. destruct x as [[|c' t]|]; cbn; eauto. Qed.

(** The system prompt fails with a [TypeError] only. *)
Lemma system_prompt_error (py_repr : pyval -> string) (ctx : dict) (e : exn) :
  AgentGraph.system_prompt py_repr ctx = Err e ->
  exists m, e = PyExc "TypeError" m.
Proof.
  unfold AgentGraph.system_prompt.
  assert (forall v e', join_val ", " v = Err e' -> exists m, e' = PyExc "TypeError" m)
    as Hj.
  { intros v e' H. destruct v; cbn in H; try discriminate H.
    - injection H as <-. eauto.
    - injection H as <-. eauto.
    - destruct (str_items l); [discriminate|]. injection H as <-. eauto. }
  destruct (join_val _ (default (VList []) (ctx !! "diagnoses"))) eqn:E1;
    [|intros H; injection H as <-; eauto].
  destruct (join_val _ (default (VList []) (ctx !! "medications"))) eqn:E2;
    [|intros H; injection H as <-; eauto].
  destruct (join_val _ (default _ (ctx !! "allergies"))) eqn:E3;
    [discriminate|intros H; injection H as <-; eauto].
Qed.

Section ChatEndpoint.
Variable lookup : string -> Result dict.
Variable llm_client : Result unit.
Variable llm_invoke : list message -> Result content.
Variable py_repr : pyval -> string.
Variable uuid_hex8 : string.
Variable validation_error : content -> string.

Local Abbreviation chat :=
  (BackendApi.chat lookup llm_client llm_invoke py_repr uuid_hex8
     validation_error).

(** What the endpoint computes, case by case. *)
Lemma chat_eq (request : BackendApi.ChatRequest) :
  let uid := BackendApi.user_id request in
  let msg := BackendApi.message request in
  chat request =
    if blank uid
    then ([], Err (HTTPException 400 "user_id is required and cannot be empty"))
    else if blank msg
    then ([], Err (HTTPException 400 "message is required and cannot be empty"))
    else
      match AgentGraph.system_prompt py_repr (resolved lookup uid) with
      | Ok p =>
          (ContextLookup uid :: model_events llm_client p msg,
           match
             BackendApi.make_ChatResponse validation_error
               (reply_of llm_client llm_invoke p msg) uid
               (or_else (BackendApi.thread_id request)
                        ("thread-" +:+ uid +:+ "-" +:+ uuid_hex8))
               (Some (resolved lookup uid))
           with
           | Ok resp => Ok resp
           | Err e =>
               Err (HTTPException 500
                      ("Failed to process chat request: " +:+ str_exn e))
           end)
      | Err e =>
          ([ContextLookup uid],
           Err (HTTPException 500
                  ("Failed to process chat request: " +:+ str_exn e)))
      end.
Proof.
  intros uid msg. unfold BackendApi.chat. fold uid msg.
  rewrite !not_or_not_strip.
  destruct (blank uid); [reflexivity|].
  destruct (blank msg); [reflexivity|].
  destruct (AgentGraph.system_prompt py_repr (resolved lookup uid))
    as [p|e] eqn:Hp.
  - rewrite (invoke_agent_eq _ _ _ _ uid msg p _ Hp).
    destruct (or_else_nonempty (BackendApi.thread_id request) "t"
                ("hread-" +:+ uid +:+ "-" +:+ uuid_hex8)) as (c & t & Ht).
    change (String "t" ("hread-" +:+ uid +:+ "-" +:+ uuid_hex8))
      with ("thread-" +:+ uid +:+ "-" +:+ uuid_hex8) in Ht.
    rewrite Ht.
    cbv [bind ret lift try_except AgentGraph.r_response
      AgentGraph.r_user_id AgentGraph.r_thread_id
      AgentGraph.r_patient_context or_else BackendApi.make_ChatResponse].
    rewrite app_nil_r.
    destruct (reply_of llm_client llm_invoke p msg);
      cbv [raise]; rewrite ?app_nil_r; reflexivity.
  - rewrite (invoke_agent_raises _ _ _ _ uid msg _ e Hp).
    destruct (system_prompt_error _ _ _ Hp) as [m ->]. reflexivity.
Qed.

(** The endpoint answers "user_id is required and cannot be empty" (400,
    nothing done) exactly when the identifier is empty or made of white
    space only. *)
Theorem chat_rejects_user_id_iff_blank (request : BackendApi.ChatRequest) :
  chat request =
    ([], Err (HTTPException 400 "user_id is required and cannot be empty"))
  <-> blank (BackendApi.user_id request) = true.
Proof.
  rewrite chat_eq. cbv zeta.
  destruct (blank (BackendApi.user_id request)); [done|].
  split; [|discriminate].
  destruct (blank (BackendApi.message request)); [discriminate|].
  destruct (AgentGraph.system_prompt _ _); discriminate.
Qed.

(** With a proper identifier, an empty or white-space message is refused
    with its own 400 error, before the agent is invoked. *)
Theorem chat_rejects_blank_message (request : BackendApi.ChatRequest) :
  blank (BackendApi.user_id request) = false ->
  blank (BackendApi.message request) = true ->
  chat request =
    ([], Err (HTTPException 400 "message is required and cannot be empty")).
Proof. intros Hu Hm. rewrite chat_eq. cbv zeta. by rewrite Hu, Hm. Qed.

(** A request that passes both checks, whose profile renders and whose
    reply from the agent is a text gets a response: that text, the
    identifier of the request, the profile, and as thread the one of the
    request when it names one (a non-empty string), otherwise
    "thread-<user_id>-<8 hex digits>". *)
Theorem chat_returns_agent_reply
  (request : BackendApi.ChatRequest) (p s : string) :
  blank (BackendApi.user_id request) = false ->
  blank (BackendApi.message request) = false ->
  AgentGraph.system_prompt py_repr
    (resolved lookup (BackendApi.user_id request)) = Ok p ->
  reply_of llm_client llm_invoke p (BackendApi.message request) = Text s ->
  exists resp,
    chat request =
      (ContextLookup (BackendApi.user_id request)
       :: model_events llm_client p (BackendApi.message request),
       Ok resp) /\
    BackendApi.response resp = s /\
    BackendApi.resp_user_id resp = BackendApi.user_id request /\
    BackendApi.patient_context resp =
      Some (resolved lookup (BackendApi.user_id request)) /\
    match BackendApi.thread_id request with
    | Some (String c t) => BackendApi.resp_thread_id resp = String c t
    | _ =>
        BackendApi.resp_thread_id resp =
          "thread-" +:+ BackendApi.user_id request +:+ "-" +:+ uuid_hex8
    end.
Proof.
  intros Hu Hm Hp Hs. rewrite chat_eq. cbv zeta. rewrite Hu, Hm, Hp, Hs.
  eexists. split; [reflexivity|].
  cbn [BackendApi.response BackendApi.resp_user_id BackendApi.patient_context
       BackendApi.resp_thread_id].
  repeat split. by destruct (BackendApi.thread_id request) as [[|c t]|].
Qed.

(** A reply of the agent that is not a text (the model returned a list of
    content blocks) does not pass [ChatResponse]: after the lookup and
    the model call the endpoint answers 500, with the text of the
    validation error in the detail. *)
Theorem chat_refuses_non_text_reply
  (request : BackendApi.ChatRequest) (p : string) :
  blank (BackendApi.user_id request) = false ->
  blank (BackendApi.message request) = false ->
  AgentGraph.system_prompt py_repr
    (resolved lookup (BackendApi.user_id request)) = Ok p ->
  is_text (reply_of llm_client llm_invoke p (BackendApi.message request))
    = false ->
  chat request =
    (ContextLookup (BackendApi.user_id request)
     :: model_events llm_client p (BackendApi.message request),
     Err (HTTPException 500
            ("Failed to process chat request: " +:+
             validation_error
               (reply_of llm_client llm_invoke p (BackendApi.message request))))) /\
  exists u r,
    llm_client = Ok u /\
    llm_invoke (full_messages p (BackendApi.message request)) = Ok r /\
    is_text r = false.
Proof.
  intros Hu Hm Hp Ht. rewrite chat_eq. cbv zeta. rewrite Hu, Hm, Hp. split.
  - by destruct (reply_of llm_client llm_invoke p (BackendApi.message request)).
  - unfold reply_of in Ht. destruct llm_client as [u|e]; [|discriminate].
    destruct (llm_invoke (full_messages p (BackendApi.message request)))
      as [r|e]; [|discriminate].
    by exists u, r.
Qed.

(** The endpoint fails with an HTTP error only, of status 400 or 500.
    With 400 nothing was done.  With 500 either the profile did not
    render, and then the context was looked up and the model was not
    called; or the model was called and its reply is not a text. *)
Theorem chat_fails_with_400_or_500_only
  (request : BackendApi.ChatRequest) (e : exn) :
  outcome (chat request) = Err e ->
  exists detail,
    (e = HTTPException 400 detail /\ events (chat request) = []) \/
    (e = HTTPException 500 detail /\
     ((exists e', AgentGraph.system_prompt py_repr
                    (resolved lookup (BackendApi.user_id request)) = Err e' /\
       events (chat request) = [ContextLookup (BackendApi.user_id request)]) \/
      (exists p,
         AgentGraph.system_prompt py_repr
           (resolved lookup (BackendApi.user_id request)) = Ok p /\
         events (chat request) =
           ContextLookup (BackendApi.user_id request)
           :: model_events llm_client p (BackendApi.message request) /\
         is_text (reply_of llm_client llm_invoke p
                    (BackendApi.message request)) = false))).
Proof.
  rewrite chat_eq. cbv zeta.
  destruct (blank (BackendApi.user_id request)).
  { intros H. injection H as <-. eexists. by left. }
  destruct (blank (BackendApi.message request)).
  { intros H. injection H as <-. eexists. by left. }
  destruct (AgentGraph.system_prompt _ _) as [p|e'].
  - unfold outcome. cbn [snd]. unfold BackendApi.make_ChatResponse.
    destruct (reply_of llm_client llm_invoke p (BackendApi.message request))
      eqn:Hr; try discriminate;
      intros H; injection H as <-; eexists; right; (split; [reflexivity|]);
      right; exists p;
      (split; [reflexivity|split; [reflexivity|by rewrite ?Hr]]).
  - intros H. injection H as <-. eexists. right. split; [reflexivity|].
    left. by exists e'.
Qed.

End ChatEndpoint.

Lemma chat_rejects_blank_message_witness :
  BackendApi.chat AgentGraph.mock_data (Ok tt) (as_content llm_answers) repr0
    "0a1b2c3d" validation_error0
    (BackendApi.mkRequest "patient-12345" "   " None) =
  ([], Err (HTTPException 400 "message is required and cannot be empty")).
Proof.
  apply (chat_rejects_blank_message AgentGraph.mock_data (Ok tt)
           (as_content llm_answers) repr0 "0a1b2c3d" validation_error0
           (BackendApi.mkRequest "patient-12345" "   " None));
    reflexivity.
Defined.

Lemma chat_returns_agent_reply_witness :
  exists resp,
    outcome (BackendApi.chat AgentGraph.mock_data (Ok tt)
               (as_content llm_answers) repr0 "0a1b2c3d" validation_error0
               (BackendApi.mkRequest "patient-12345" "What should I eat?" None))
      = Ok resp /\
    BackendApi.response resp = "Try a short walk after dinner." /\
    BackendApi.resp_thread_id resp = "thread-patient-12345-0a1b2c3d".
Proof.
  destruct (chat_returns_agent_reply AgentGraph.mock_data (Ok tt)
              (as_content llm_answers) repr0 "0a1b2c3d" validation_error0
              (BackendApi.mkRequest "patient-12345" "What should I eat?" None)
              _ "Try a short walk after dinner."
              eq_refl eq_refl eq_refl eq_refl)
    as (resp & H & Hr & _ & _ & Ht).
  exists resp. split; [by rewrite H|]. split; [exact Hr|exact Ht].
Defined.

Lemma chat_refuses_non_text_reply_witness :
  exists p,
    BackendApi.chat AgentGraph.mock_data (Ok tt) llm_blocks repr0 "0a1b2c3d"
      validation_error0
      (BackendApi.mkRequest "patient-12345" "What should I eat?" None) =
    ([ContextLookup "patient-12345";
      ModelCall (full_messages p "What should I eat?")],
     Err (HTTPException 500
            ("Failed to process chat request: " +:+
             "1 validation error for ChatResponse"))).
Proof.
  eexists.
  exact (proj1 (chat_refuses_non_text_reply AgentGraph.mock_data (Ok tt)
                  llm_blocks repr0 "0a1b2c3d" validation_error0
                  (BackendApi.mkRequest "patient-12345" "What should I eat?" None)
                  _ eq_refl eq_refl eq_refl eq_refl)).
Defined.

Lemma chat_fails_with_400_or_500_only_witness :
  exists detail,
    (HTTPException 500
       ("Failed to process chat request: " +:+
        "1 validation error for ChatResponse")
       = HTTPException 400 detail /\
     events (BackendApi.chat AgentGraph.mock_data (Ok tt) llm_blocks repr0
               "0a1b2c3d" validation_error0
               (BackendApi.mkRequest "patient-12345" "Hi" None)) = []) \/
    (HTTPException 500
       ("Failed to process chat request: " +:+
        "1 validation error for ChatResponse")
       = HTTPException 500 detail /\
     ((exists e', AgentGraph.system_prompt repr0
                    (resolved AgentGraph.mock_data "patient-12345") = Err e' /\
       events (BackendApi.chat AgentGraph.mock_data (Ok tt) llm_blocks repr0
                 "0a1b2c3d" validation_error0
                 (BackendApi.mkRequest "patient-12345" "Hi" None))
         = [ContextLookup "patient-12345"]) \/
      (exists p,
         AgentGraph.system_prompt repr0
           (resolved AgentGraph.mock_data "patient-12345") = Ok p /\
         events (BackendApi.chat AgentGraph.mock_data (Ok tt) llm_blocks repr0
                   "0a1b2c3d" validation_error0
                   (BackendApi.mkRequest "patient-12345" "Hi" None))
           = ContextLookup "patient-12345" :: model_events (Ok tt) p "Hi" /\
         is_text (reply_of (Ok tt) llm_blocks p "Hi") = false))).
Proof.
  exact (chat_fails_with_400_or_500_only AgentGraph.mock_data (Ok tt)
           llm_blocks repr0 "0a1b2c3d" validation_error0
           (BackendApi.mkRequest "patient-12345" "Hi" None) _ eq_refl).
Defined.

(** ** agent_graph.py: profiles that do not render, and what reaches whom *)

Lemma system_prompt_ok_inv (py_repr : pyval -> string) (ctx : dict) (p : string) :
  AgentGraph.system_prompt py_repr ctx = Ok p ->
  exists d m a,
    join_val ", " (default (VList []) (ctx !! "diagnoses")) = Ok d /\
    join_val ", " (default (VList []) (ctx !! "medications")) = Ok m /\
    join_val ", " (default (VList [VStr "None known"]) (ctx !! "allergies"))
      = Ok a /\
    p = AgentGraph.f_system_prompt
          (py_str py_repr (default (VStr "Patient") (ctx !! "name")))
          (py_str py_repr (default (VStr "Unknown") (ctx !! "age")))
          (py_str py_repr (default (VStr "No medical history available")
                                   (ctx !! "medical_history")))
          d m a.
Proof.
  unfold AgentGraph.system_prompt.
  destruct (join_val _ (default (VList []) (ctx !! "diagnoses"))) as [d|];
    [|discriminate].
  destruct (join_val _ (default (VList []) (ctx !! "medications"))) as [m|];
    [|discriminate].
  destruct (join_val _ (default _ (ctx !! "allergies"))) as [a|];
    [|discriminate].
  intros H. injection H as <-. by exists d, m, a.
Qed.

(** A list attribute that is present but holds [None] or a number, unlike
    a missing one, makes the whole run fail: the prompt is composed outside
    the [try] of [generate_response], so the [TypeError] of [join] leaves
    [invoke_agent] after the context lookup, without a model call and
    without the fallback reply. *)
Theorem unjoinable_attribute_fails_run
  (lookup : string -> Result dict) (llm_client : Result unit)
  (llm_invoke : list message -> Result content) (py_repr : pyval -> string)
  (uid msg : string) (tid : option string)
  (ctx : dict) (a : attribute) (v : pyval) :
  a = Diagnoses \/ a = Medications \/ a = Allergies ->
  lookup uid = Ok ctx ->
  ctx !! attr_key a = Some v ->
  v = VNone \/ (exists z, v = VInt z) ->
  exists m,
    AgentGraph.invoke_agent lookup llm_client llm_invoke py_repr uid msg tid =
      ([ContextLookup uid], Err (PyExc "TypeError" m)).
Proof.
  intros Ha Hl Hk Hv.
  assert (resolved lookup uid = ctx) as Hr by (unfold resolved; by rewrite Hl).
  assert (exists e', join_val ", " v = Err e') as [e' Hj].
  { destruct Hv as [->|[z ->]]; cbn; eauto. }
  destruct (AgentGraph.system_prompt py_repr ctx) as [p|e] eqn:Hp.
  - exfalso. destruct (system_prompt_ok_inv _ _ _ Hp) as (d & m & al & Hd & Hm & Hal & _).
    destruct Ha as [->|[->| ->]]; cbn [attr_key] in Hk; rewrite Hk in *;
      cbn [from_option id] in *; congruence.
  - destruct (system_prompt_error _ _ _ Hp) as [m ->]. exists m.
    apply invoke_agent_raises. by rewrite Hr.
Qed.

Lemma unjoinable_attribute_fails_run_witness :
  exists m,
    AgentGraph.invoke_agent (fun _ => Ok (<["diagnoses" := VNone]> ∅))
      (Ok tt) (as_content llm_answers) repr0 "patient-12345" "Hi" None =
    ([ContextLookup "patient-12345"], Err (PyExc "TypeError" m)).
Proof.
  apply (unjoinable_attribute_fails_run
           (fun _ => Ok (<["diagnoses" := VNone]> ∅)) (Ok tt) (as_content llm_answers)
           repr0 "patient-12345" "Hi" None (<["diagnoses" := VNone]> ∅)
           Diagnoses VNone).
  - by left.
  - reflexivity.
  - reflexivity.
  - by left.
Defined.

(** An attribute that is present as an empty list: the diagnoses and the
    medications read "None on record", as when missing, while the
    allergies read as an empty text, the default "None known" standing
    for a missing key only. *)
Theorem empty_list_attribute_rendering
  (py_repr : pyval -> string) (profile : dict) (a : attribute) (p : string) :
  a = Diagnoses \/ a = Medications \/ a = Allergies ->
  profile !! attr_key a = Some (VList []) ->
  AgentGraph.system_prompt py_repr profile = Ok p ->
  occurs (line a (match a with Allergies => "" | _ => "None on record" end)) p.
Proof.
  intros Ha Hk Hp.
  destruct (system_prompt_ok_inv _ _ _ Hp) as (d & m & al & Hd & Hm & Hal & ->).
  unfold AgentGraph.f_system_prompt, line.
  destruct Ha as [->|[->| ->]]; cbn [attr_key] in Hk; rewrite Hk in *.
  - cbn in Hd. injection Hd as <-.
    do 15 apply occurs_skip. eexists "", _. reflexivity.
  - cbn in Hm. injection Hm as <-.
    do 18 apply occurs_skip. eexists "", _. reflexivity.
  - cbn in Hal. injection Hal as <-.
    do 21 apply occurs_skip. eexists "", _. reflexivity.
Qed.

Lemma empty_list_attribute_rendering_witness :
  exists p,
    AgentGraph.system_prompt repr0 (<["allergies" := VList []]> ∅) = Ok p /\
    occurs (line Allergies "") p.
Proof.
  eexists. split; [reflexivity|].
  apply (empty_list_attribute_rendering repr0 (<["allergies" := VList []]> ∅)
           Allergies).
  - by right; right.
  - reflexivity.
  - reflexivity.
Defined.

Section AgentGraphMore.
Variable lookup : string -> Result dict.
Variable llm_client : Result unit.
Variable llm_invoke : list message -> Result content.
Variable py_repr : pyval -> string.

(** When the lookup fails, what is sent to the model does not depend on
    the error: the system prompt is the one of the minimal context.  The
    agent returns the text of the error under the key "error" of the
    patient context; and when its reply is a text, so that the chat
    endpoint answers, the endpoint hands that context, error text
    included, to its caller. *)
Theorem lookup_error_reaches_caller_not_model
  (uuid_hex8 : string) (validation_error : content -> string)
  (request : BackendApi.ChatRequest) (e : exn) (s : string) :
  blank (BackendApi.user_id request) = false ->
  blank (BackendApi.message request) = false ->
  lookup (BackendApi.user_id request) = Err e ->
  reply_of llm_client llm_invoke degraded_prompt (BackendApi.message request)
    = Text s ->
  (exists res,
     AgentGraph.invoke_agent lookup llm_client llm_invoke py_repr
       (BackendApi.user_id request) (BackendApi.message request)
       (BackendApi.thread_id request) =
       (ContextLookup (BackendApi.user_id request)
        :: model_events llm_client degraded_prompt (BackendApi.message request),
        Ok res) /\
     AgentGraph.r_patient_context res !! "error" = Some (VStr (str_exn e))) /\
  (exists resp ctx,
     BackendApi.chat lookup llm_client llm_invoke py_repr uuid_hex8
       validation_error request =
       (ContextLookup (BackendApi.user_id request)
        :: model_events llm_client degraded_prompt (BackendApi.message request),
        Ok resp) /\
     BackendApi.response resp = s /\
     BackendApi.patient_context resp = Some ctx /\
     ctx !! "error" = Some (VStr (str_exn e))).
Proof.
  intros Hu Hm Hl Hs.
  assert (resolved lookup (BackendApi.user_id request)
          = AgentGraph.fallback_context e) as Hr.
  { unfold resolved. by rewrite Hl. }
  assert (AgentGraph.system_prompt py_repr
            (resolved lookup (BackendApi.user_id request)) = Ok degraded_prompt)
    as Hp.
  { rewrite Hr. apply system_prompt_fallback. }
  split.
  - rewrite (invoke_agent_eq _ _ _ _ _ _ _ _ Hp). eexists.
    split; [reflexivity|]. cbn [AgentGraph.r_patient_context]. by rewrite Hr.
  - destruct (chat_returns_agent_reply lookup llm_client llm_invoke py_repr
                uuid_hex8 validation_error request degraded_prompt s
                Hu Hm Hp Hs) as (resp & Hc & Hresp & _ & Hctx & _).
    exists resp, (AgentGraph.fallback_context e).
    split; [exact Hc|]. split; [exact Hresp|]. split; [by rewrite Hctx, Hr|].
    reflexivity.
Qed.

(** The compiled graph, run on any initial state whose profile renders:
    the messages grow by exactly one assistant message, which holds the
    response; the user identifier is kept; the profile of the initial
    state is replaced by the resolved one.  The response is the text of
    the model or the fallback string. *)
Theorem healthcare_agent_appends_one_reply
  (initial_state : AgentGraph.AgentState) (p : string) :
  AgentGraph.system_prompt py_repr
    (resolved lookup (AgentGraph.user_id initial_state)) = Ok p ->
  exists evs final,
    AgentGraph.healthcare_agent_invoke lookup llm_client llm_invoke py_repr
      initial_state = (evs, Ok final) /\
    AgentGraph.messages final =
      AgentGraph.messages initial_state ++ [AIMessage (AgentGraph.response final)] /\
    AgentGraph.user_id final = AgentGraph.user_id initial_state /\
    AgentGraph.patient_context final =
      resolved lookup (AgentGraph.user_id initial_state) /\
    (AgentGraph.response final = Text AgentGraph.error_response \/
     llm_invoke (SystemMessage p :: AgentGraph.messages initial_state)
       = Ok (AgentGraph.response final)).
Proof.
  intros Hp. destruct initial_state as [msgs uid ctx0 resp0].
  cbn [AgentGraph.user_id AgentGraph.messages] in *.
  unfold AgentGraph.healthcare_agent_invoke, recursion_limit,
    AgentGraph.entry_point.
  rewrite (run_from_ok _ _ _ _ _
             (AgentGraph.mkState msgs uid (resolved lookup uid) resp0)
             [ContextLookup uid]); cycle 1.
  { unfold AgentGraph.step, AgentGraph.node_fn.
    by rewrite fetch_patient_context_eq. }
  cbn [AgentGraph.edge].
  set (st1 := AgentGraph.mkState msgs uid (resolved lookup uid) resp0).
  assert (exists evs r,
            AgentGraph.step lookup llm_client llm_invoke py_repr
              AgentGraph.n_generate_response st1 =
              (evs, Ok (AgentGraph.mkState (msgs ++ [AIMessage r]) uid
                          (resolved lookup uid) r)) /\
            (r = Text AgentGraph.error_response \/
             llm_invoke (SystemMessage p :: msgs) = Ok r))
    as (evs & r & Hstep & Hr).
  { unfold AgentGraph.step, AgentGraph.node_fn, AgentGraph.generate_response.
    cbn [st1 AgentGraph.patient_context AgentGraph.messages]. rewrite Hp.
    destruct llm_client as [[]|e].
    - cbv [lift bind emit ret try_except].
      destruct (llm_invoke (SystemMessage p :: msgs)) as [r|e] eqn:E.
      + eexists _, r. split; [reflexivity|by right].
      + eexists _, _. split; [reflexivity|by left].
    - eexists _, _. split; [reflexivity|by left]. }
  rewrite (run_from_ok _ _ _ _ _ _ _ Hstep). cbn [AgentGraph.edge].
  eexists _, _. split; [reflexivity|].
  cbn [AgentGraph.messages AgentGraph.response AgentGraph.user_id
       AgentGraph.patient_context].
  by repeat split.
Qed.

(** The thread of a result: the one asked for when it is a non-empty
    string; otherwise, for [None] and for the empty string alike,
    "thread-<user_id>". *)
Theorem invoke_agent_thread_id
  (uid msg p : string) (tid : option string) :
  AgentGraph.system_prompt py_repr (resolved lookup uid) = Ok p ->
  exists res,
    outcome (AgentGraph.invoke_agent lookup llm_client llm_invoke py_repr
               uid msg tid) = Ok res /\
    AgentGraph.r_user_id res = uid /\
    match tid with
    | Some (String c t) => AgentGraph.r_thread_id res = String c t
    | _ => AgentGraph.r_thread_id res = "thread-" +:+ uid
    end.
Proof.
  intros Hp. rewrite (invoke_agent_eq _ _ _ _ uid msg p tid Hp).
  eexists. split; [reflexivity|]. split; [reflexivity|].
  by destruct tid as [[|c t]|].
Qed.

End AgentGraphMore.

Lemma lookup_error_reaches_caller_not_model_witness :
  exists resp ctx,
    outcome (BackendApi.chat lookup_down (Ok tt) (as_content llm_answers) repr0
               "0a1b2c3d" validation_error0
               (BackendApi.mkRequest "patient-12345" "Hi" None)) = Ok resp /\
    BackendApi.patient_context resp = Some ctx /\
    ctx !! "error" = Some (VStr "database unreachable").
Proof.
  destruct (lookup_error_reaches_caller_not_model lookup_down (Ok tt)
              (as_content llm_answers) repr0 "0a1b2c3d" validation_error0
              (BackendApi.mkRequest "patient-12345" "Hi" None)
              (PyExc "ConnectionError" "database unreachable")
              "Try a short walk after dinner."
              eq_refl eq_refl eq_refl eq_refl)
    as (_ & resp & ctx & H & _ & Hc & He).
  exists resp, ctx. split; [by rewrite H|]. split; [exact Hc|exact He].
Defined.

Lemma healthcare_agent_appends_one_reply_witness :
  exists evs final,
    AgentGraph.healthcare_agent_invoke AgentGraph.mock_data (Ok tt) (as_content llm_answers)
      repr0 (AgentGraph.mkState [HumanMessage "Hi"; AIMessage (Text "Hello");
                                 HumanMessage "What should I eat?"]
               "patient-12345" ∅ (Text "")) = (evs, Ok final) /\
    AgentGraph.messages final =
      [HumanMessage "Hi"; AIMessage (Text "Hello"); HumanMessage "What should I eat?"]
      ++ [AIMessage (AgentGraph.response final)].
Proof.
  destruct (healthcare_agent_appends_one_reply AgentGraph.mock_data (Ok tt)
              (as_content llm_answers) repr0
              (AgentGraph.mkState [HumanMessage "Hi"; AIMessage (Text "Hello");
                                   HumanMessage "What should I eat?"]
                 "patient-12345" ∅ (Text "")) _ eq_refl)
    as (evs & final & H & Hm & _).
  exists evs, final. split; [exact H|exact Hm].
Defined.

Lemma invoke_agent_thread_id_witness :
  exists res,
    outcome (AgentGraph.invoke_agent AgentGraph.mock_data (Ok tt) (as_content llm_answers)
               repr0 "patient-12345" "Hi" (Some "")) = Ok res /\
    AgentGraph.r_thread_id res = "thread-patient-12345".
Proof.
  destruct (invoke_agent_thread_id AgentGraph.mock_data (Ok tt) (as_content llm_answers)
              repr0 "patient-12345" "Hi" _ (Some "") eq_refl)
    as (res & H & _ & Ht).
  exists res. split; [exact H|exact Ht].
Defined.

(** What [invoke_agent] does outside the process, for any input: one
    context lookup for the given user, then at most one model call, whose
    messages are the system prompt once and the user's message.  It
    never creates a provider task, whatever the reply says. *)
Theorem invoke_agent_effects
  (lookup : string -> Result dict) (llm_client : Result unit)
  (llm_invoke : list message -> Result content) (py_repr : pyval -> string)
  (uid msg : string) (tid : option string) :
  exists tail,
    events (AgentGraph.invoke_agent lookup llm_client llm_invoke py_repr
              uid msg tid) = ContextLookup uid :: tail /\
    (tail = [] \/
     exists p,
       AgentGraph.system_prompt py_repr (resolved lookup uid) = Ok p /\
       tail = [ModelCall [SystemMessage p; HumanMessage msg]]) /\
    (forall ctx r, ~ In (ProviderTask ctx r) (ContextLookup uid :: tail)).
Proof.
  destruct (AgentGraph.system_prompt py_repr (resolved lookup uid))
    as [p|e] eqn:Hp.
  - rewrite (invoke_agent_eq _ _ _ _ uid msg p tid Hp).
    exists (model_events llm_client p msg). split; [reflexivity|].
    unfold model_events, full_messages. destruct llm_client as [[]|e].
    + split; [right; by exists p|].
      intros ctx r [H|[H|[]]]; discriminate H.
    + split; [by left|]. intros ctx r [H|[]]; discriminate H.
  - rewrite (invoke_agent_raises _ _ _ _ uid msg tid e Hp).
    exists []. split; [reflexivity|]. split; [by left|].
    intros ctx r [H|[]]; discriminate H.
Qed.

(** ** backend_api.py: the patient endpoint *)

Section PatientEndpointProps.
Variable lookup : string -> Result dict.
Variable utcnow : string.

Local Abbreviation get_patient_context :=
  (BackendApi.get_patient_context lookup utcnow).

Lemma get_patient_context_eq (user_id : string) :
  get_patient_context user_id =
    if blank user_id
    then ([], Err (HTTPException 500
                     ("Failed to fetch patient context: " +:+
                      str_exn (HTTPException 400 "user_id is required"))))
    else ([ContextLookup user_id],
          Ok {| BackendApi.pc_user_id := user_id;
                BackendApi.pc_patient_context := resolved lookup user_id;
                BackendApi.pc_timestamp := utcnow |}).
Proof.
  unfold BackendApi.get_patient_context. rewrite not_or_not_strip.
  destruct (blank user_id); [reflexivity|].
  by rewrite fetch_patient_context_eq.
Qed.

(** The patient endpoint never answers 400: the error it raises for an
    empty or white-space identifier is caught by its own [except] clause
    and leaves as a 500, before any lookup.  It fails in no other case. *)
Theorem patient_endpoint_blank_id_is_500 (user_id : string) (e : exn) :
  outcome (get_patient_context user_id) = Err e ->
  blank user_id = true /\
  events (get_patient_context user_id) = [] /\
  exists detail, e = HTTPException 500 detail.
Proof.
  rewrite get_patient_context_eq.
  destruct (blank user_id); [|discriminate].
  intros H. injection H as <-. split; [done|]. split; [done|]. by eexists.
Qed.

(** For a proper identifier the endpoint returns, after one lookup, the
    profile the pipeline would use: the resolved one, degraded when the
    lookup fails, and the same [invoke_agent] returns for that user. *)
Theorem patient_endpoint_returns_resolved_profile
  (llm_client : Result unit) (llm_invoke : list message -> Result content)
  (py_repr : pyval -> string)
  (user_id msg : string) (tid : option string) (res : AgentGraph.AgentResult) :
  blank user_id = false ->
  outcome (AgentGraph.invoke_agent lookup llm_client llm_invoke py_repr
             user_id msg tid) = Ok res ->
  exists r,
    get_patient_context user_id = ([ContextLookup user_id], Ok r) /\
    BackendApi.pc_user_id r = user_id /\
    BackendApi.pc_patient_context r = resolved lookup user_id /\
    BackendApi.pc_patient_context r = AgentGraph.r_patient_context res.
Proof.
  intros Hb Hres. rewrite get_patient_context_eq, Hb.
  eexists. split; [reflexivity|]. split; [reflexivity|]. split; [reflexivity|].
  cbn [BackendApi.pc_patient_context].
  destruct (AgentGraph.system_prompt py_repr (resolved lookup user_id))
    as [p|e'] eqn:Hp.
  - rewrite (invoke_agent_eq _ _ _ _ user_id msg p tid Hp) in Hres.
    by injection Hres as <-.
  - by rewrite (invoke_agent_raises _ _ _ _ user_id msg tid e' Hp) in Hres.
Qed.

End PatientEndpointProps.

Lemma patient_endpoint_blank_id_is_500_witness :
  blank "  " = true /\
  events (BackendApi.get_patient_context AgentGraph.mock_data
            "2025-12-01T10:00:00" "  ") = [] /\
  exists detail,
    HTTPException 500 "Failed to fetch patient context: 400: user_id is required"
      = HTTPException 500 detail.
Proof.
  exact (patient_endpoint_blank_id_is_500 AgentGraph.mock_data
           "2025-12-01T10:00:00" "  " _ eq_refl).
Defined.

Lemma patient_endpoint_returns_resolved_profile_witness :
  exists r,
    BackendApi.get_patient_context lookup_down "2025-12-01T10:00:00"
      "patient-12345" = ([ContextLookup "patient-12345"], Ok r) /\
    BackendApi.pc_patient_context r !! "name" = Some (VStr "Patient").
Proof.
  destruct (patient_endpoint_returns_resolved_profile lookup_down
              "2025-12-01T10:00:00" (Ok tt) (as_content llm_answers) repr0
              "patient-12345" "Hi" None _ eq_refl eq_refl)
    as (r & H & _ & Hc & _).
  exists r. split; [exact H|]. by rewrite Hc.
Defined.

(** ** chat_app.py: the stored history *)

Lemma pop_snoc {A} (l : list A) (x : A) : ChatApp.pop (l ++ [x]) = Ok l.
Proof.
  unfold ChatApp.pop. rewrite removelast_last. by destruct l.
Qed.

Section ChatAppProps.
Variable py_repr : pyval -> string.

Lemma submit_eq (llm_invoke : list message -> Result string)
  (chat_history : list message) (prompt : string) :
  ChatApp.submit llm_invoke py_repr chat_history prompt =
    match llm_invoke (sent prompt chat_history) with
    | Ok r =>
        (events (Agent.run llm_invoke py_repr prompt chat_history),
         Ok (chat_history ++ [HumanMessage prompt; AIMessage (Text r)],
             ChatApp.Written r))
    | Err e =>
        (events (Agent.run llm_invoke py_repr prompt chat_history),
         Ok (chat_history,
             ChatApp.ErrorBox ("An error occurred: " +:+ str_exn e)))
    end.
Proof.
  unfold ChatApp.submit. rewrite removelast_last.
  change (Agent.app_invoke llm_invoke py_repr (Agent.inputs prompt chat_history))
    with (Agent.run llm_invoke py_repr prompt chat_history).
  rewrite run_eq.
  destruct (llm_invoke (sent prompt chat_history)) as [r|e].
  - cbv [bind ret try_except events fst final_state Agent.suggestion].
    rewrite app_nil_r, <- app_assoc. reflexivity.
  - cbv [bind try_except events fst]. rewrite pop_snoc.
    cbv [lift ret]. by rewrite app_nil_r.
Qed.


(** A submission on which the agent fails: an error box is shown with the
    text of the exception, and the user's message is removed again, so the
    stored history is back to what it was. *)
Theorem submit_failure_restores_history
  (llm_invoke : list message -> Result string)
  (chat_history : list message) (prompt : string) (e : exn) :
  llm_invoke (SystemMessage mock_prompt :: chat_history ++ [HumanMessage prompt])
    = Err e ->
  outcome (ChatApp.submit llm_invoke py_repr chat_history prompt) =
    Ok (chat_history, ChatApp.ErrorBox ("An error occurred: " +:+ str_exn e)).
Proof.
  intros H. fold (sent prompt chat_history) in H. by rewrite submit_eq, H.
Qed.

Lemma exchanges_app (l1 l2 : list (string * string)) :
  exchanges (l1 ++ l2) = exchanges l1 ++ exchanges l2.
Proof.
  induction l1 as [|[q r] l1 IH]; [reflexivity|].
  cbn [exchanges app]. by rewrite IH.
Qed.

Lemma display_exchanges (l : list (string * string)) :
  ChatApp.display (exchanges l) =
    flat_map (fun qr => [("user", Text (fst qr));
                         ("assistant", Text (snd qr))]) l.
Proof.
  induction l as [|[q r] l IH]; [reflexivity|].
  cbn [exchanges ChatApp.display flat_map app fst snd]. by rewrite IH.
Qed.

(** Over any series of submissions, answered or failed, a stored history
    made of completed exchanges stays one: it keeps the exchanges it had,
    gains one for each answered submission at most, and every message of
    it is drawn, as a user or an assistant bubble. *)
Theorem session_stays_paired
  (turns : list (string * (list message -> Result string)))
  (l : list (string * string)) :
  exists l',
    session_after py_repr turns (exchanges l) = exchanges (l ++ l') /\
    length l' <= length turns /\
    length (ChatApp.display (session_after py_repr turns (exchanges l))) =
      length (session_after py_repr turns (exchanges l)).
Proof.
  assert (forall k, length (ChatApp.display (exchanges k)) = length (exchanges k))
    as Hlen.
  { induction k as [|[q r] k IH]; [reflexivity|].
    cbn [exchanges ChatApp.display length]. by rewrite IH. }
  revert l. induction turns as [|[prompt llm] turns IH]; intros l.
  - exists []. cbn [session_after]. rewrite app_nil_r. auto.
  - cbn [session_after]. rewrite submit_eq. unfold outcome. 
    destruct (llm (sent prompt (exchanges l))) as [r|e]; cbn [snd].
    + replace (exchanges l ++ [HumanMessage prompt; AIMessage (Text r)])
        with (exchanges (l ++ [(prompt, r)]))
        by (by rewrite exchanges_app).
      destruct (IH (l ++ [(prompt, r)])) as (l' & Hs & Hl & Hd).
      exists ((prompt, r) :: l'). rewrite Hs, <- app_assoc.
      split; [done|]. split; [cbn; lia|]. apply Hlen.
    + destruct (IH l) as (l' & Hs & Hl & Hd).
      exists l'. split; [done|]. split; [cbn; lia|done].
Qed.

End ChatAppProps.


Lemma submit_failure_restores_history_witness :
  outcome (ChatApp.submit llm_down repr0
             [HumanMessage "Hi"; AIMessage (Text "Hello")] "Any tip?") =
  Ok ([HumanMessage "Hi"; AIMessage (Text "Hello")],
      ChatApp.ErrorBox ("An error occurred: " +:+ "backend timed out")).
Proof.
  exact (submit_failure_restores_history repr0 llm_down
           [HumanMessage "Hi"; AIMessage (Text "Hello")] "Any tip?" _ eq_refl).
Defined.
